(** * Batch FBX to GLB converter

    Shallow embedding of [client/public/GreatSwordPack/blender_to_babylon.py].

    The script is a client of two libraries that are not part of the
    repository, Python's [os.path] and Blender's [bpy], and it writes to a
    standard output it does not set up.  All three are taken as a
    parameter, the record [Host]; the script is a program in a monad that
    threads the host's state, the lines printed so far and the list of
    requests sent to the host, and in which a request or a [print] may
    raise.

    Layout: Python strings, the host interface, the monad, the script, the
    contract of a Blender-like host and a small reference host first; the
    theorems after them. *)

From Stdlib Require Import String Ascii List Arith Bool Lia DecimalString.
From ExtLib Require Import Structures.Monad Structures.MonadExc.
Import ListNotations.
Import MonadNotation.
Local Open Scope monad_scope.
Local Open Scope string_scope.

Set Implicit Arguments.

(** ** Python strings *)

Module Py.

(** ["\n"] *)
Definition newline : string := String (ascii_of_nat 10) EmptyString.

(** [s * n] *)
Fixpoint times (s : string) (n : nat) : string :=
  match n with
  | O => ""
  | S n' => s ++ times s n'
  end.

(** [str(n)] for a non-negative integer, as an f-string formats it. *)
Definition str_of_nat (n : nat) : string :=
  NilEmpty.string_of_uint (Nat.to_uint n).

(** [s.replace(old, new)]: every non-overlapping occurrence of [old], found
    left to right, is replaced.  [skip] counts the characters of an
    occurrence already replaced that are still to be dropped. *)
Fixpoint replace_from (old new : string) (skip : nat) (s : string) : string :=
  match s with
  | EmptyString => if String.eqb old "" then new else ""
  | String c rest =>
      match skip with
      | S k => replace_from old new k rest
      | O =>
          if String.prefix old s
          then new ++ (if String.eqb old ""
                       then String c (replace_from old new 0 rest)
                       else replace_from old new (String.length old - 1) rest)
          else String c (replace_from old new 0 rest)
      end
  end.

Definition replace (old new s : string) : string := replace_from old new 0 s.

(** [old in s] *)
Fixpoint contains (old s : string) : bool :=
  String.prefix old s
  || match s with
     | EmptyString => false
     | String _ rest => contains old rest
     end.

End Py.

(** ** The host: [os.path] and [bpy] *)

(** An instance of Python's [Exception], the class the handler of the
    script catches; the script reads nothing of it but [str(e)].  What
    [bpy] raises is of this class: an error an operator reports reaches
    Python as [RuntimeError], a bad argument as [TypeError], a stale
    reference as [ReferenceError].  [KeyboardInterrupt] and [SystemExit],
    which are no [Exception], end the process from outside and are not
    faults of a request; they are not modelled. *)
Record Exception := mkException { str : string }.

(** The three collections of [bpy.data] the script purges, in the order in
    which it does. *)
Inductive Kind := meshes | armatures | actions.

Definition rank (k : Kind) : nat :=
  match k with meshes => 0 | armatures => 1 | actions => 2 end.

Section Requests.

Variables Block Obj : Type.

(** What the script asks of [bpy], indexed by the type of the answer.
    The sets returned by the operators ([{'FINISHED'}], ...) are dropped by
    the script, hence [unit].  [data_iter k] is the traversal
    [for block in bpy.data.<k>]: the answer is the sequence of blocks the
    loop visits.  [bpy]'s collection iterator moves to the successor before
    it hands out a block and the loop body removes nothing but the block it
    was handed, so the sequence is fixed when the loop starts. *)
Inductive Request : Type -> Type :=
| object_select_all (action : string) : Request unit
| object_delete : Request unit
| data_iter (k : Kind) : Request (list Block)
| block_users (block : Block) : Request nat
| data_remove (k : Kind) (block : Block) : Request unit
| import_scene_fbx (filepath : string) : Request unit
| data_objects : Request (list Obj)
| object_type (obj : Obj) : Request string
| export_scene_gltf (filepath export_format : string)
    (export_animations export_force_sampling : bool) : Request unit.

(** One entry of the list of interactions with the host. *)
Inductive Call : Type :=
| os_path_exists_call (path : string)
| bpy (X : Type) (r : Request X).

Definition is_bpy (c : Call) : Prop :=
  match c with
  | os_path_exists_call _ => False
  | bpy _ => True
  end.

End Requests.

Arguments object_select_all {Block Obj}.
Arguments object_delete {Block Obj}.
Arguments data_iter {Block Obj}.
Arguments block_users {Block Obj}.
Arguments data_remove {Block Obj}.
Arguments import_scene_fbx {Block Obj}.
Arguments data_objects {Block Obj}.
Arguments object_type {Block Obj}.
Arguments export_scene_gltf {Block Obj}.
Arguments os_path_exists_call {Block Obj}.
Arguments bpy {Block Obj X}.

(** The process the script runs in.  [state] is everything outside the
    script: Blender's data and the file system.  A request either answers
    or raises, and changes the state in both cases; every request returns.
    [os.path.exists] answers [False] where it cannot tell and does not
    raise.  [print] writes to [sys.stdout]: [print_raises line s] is the
    exception the write of [line] raises in state [s], if it raises
    ([UnicodeEncodeError] where the encoding of the stream has no code for
    a character of the line, [OSError] where the stream is closed).  A
    line is written whole or not at all, and a print leaves Blender's data
    and the file system as they are. *)
Record Host := {
  state : Type;
  Block : Type;
  Obj : Type;
  os_path_join : string -> string -> string;
  os_path_exists : string -> state -> bool;
  print_raises : string -> state -> option Exception;
  bpy_perform : forall X, Request Block Obj X -> state -> (Exception + X) * state
}.

(** ** The monad of the script *)

Section Script.

Variable H : Host.

Record World := {
  host : state H;
  stdout : list string;
  calls : list (Call (Block H) (Obj H))
}.

Definition M (A : Type) : Type := World -> (Exception + A) * World.

#[export] Instance Monad_M : Monad M := {|
  ret A a := fun w => (inr a, w);
  bind A B m k := fun w =>
    match m w with
    | (inl e, w') => (inl e, w')
    | (inr a, w') => k a w'
    end
|}.

(** [try: m except Exception as e: h e]: the handler starts in the world the
    fault left. *)
#[export] Instance Exc_M : MonadExc Exception M := {|
  raise A e := fun w => (inl e, w);
  catch A m h := fun w =>
    match m w with
    | (inl e, w') => h e w'
    | (inr a, w') => (inr a, w')
    end
|}.

(** The world after a line was printed, and after a request was sent. *)
Definition say (line : string) (w : World) : World :=
  {| host := host w; stdout := stdout w ++ [line]; calls := calls w |}.

Definition note (c : Call (Block H) (Obj H)) (s : state H) (w : World) : World :=
  {| host := s; stdout := stdout w; calls := calls w ++ [c] |}.

(** [print(line)]: the line is added to the output, or the write raises. *)
Definition print (line : string) : M unit := fun w =>
  match print_raises H line (host w) with
  | Some e => (inl e, w)
  | None => (inr tt, say line w)
  end.

(** A request to [bpy]. *)
Definition call {X : Type} (r : Request (Block H) (Obj H) X) : M X := fun w =>
  let (res, s) := bpy_perform H r (host w) in (res, note (bpy r) s w).

(** [os.path.exists(path)] *)
Definition path_exists (path : string) : M bool := fun w =>
  (inr (os_path_exists H path (host w)),
   note (os_path_exists_call path) (host w) w).

(** [for x in xs: body x] *)
Fixpoint for_each {A : Type} (xs : list A) (body : A -> M unit) : M unit :=
  match xs with
  | [] => ret tt
  | x :: xs' => body x ;; for_each xs' body
  end.

(** [[x for x in xs if test x]] *)
Fixpoint comprehension {A : Type} (xs : list A) (test : A -> M bool) : M (list A) :=
  match xs with
  | [] => ret []
  | x :: xs' =>
      keep <- test x ;;
      tl <- comprehension xs' test ;;
      ret (if keep then x :: tl else tl)
  end.

(** ** The script *)

Definition fbx_folder : string :=
  "C:\Users\coder\Documents\Github\Sacred-Heart\client\public\Great Sword Pack".
Definition output_folder : string :=
  "C:\Users\coder\Documents\Github\Sacred-Heart\client\public\GreatSwordPack".

Definition fbx_files : list string :=
  [ "Maria WProp J J Ong.fbx";
    "great sword idle.fbx";
    "great sword walk.fbx";
    "great sword run.fbx";
    "great sword attack.fbx";
    "great sword slash.fbx";
    "great sword blocking.fbx";
    "great sword casting.fbx";
    "great sword jump.fbx";
    "two handed sword death.fbx";
    "great sword kick.fbx";
    "great sword high spin attack.fbx";
    "great sword power up.fbx" ].

Definition fbx_path (fbx_file : string) : string :=
  os_path_join H fbx_folder fbx_file.

(** [fbx_file.replace(".fbx", ".glb")] *)
Definition glb_name (fbx_file : string) : string :=
  Py.replace ".fbx" ".glb" fbx_file.

Definition glb_path (fbx_file : string) : string :=
  os_path_join H output_folder (glb_name fbx_file).

(** The lines the script prints. *)
Definition rule : string := Py.times "=" 50.
Definition banner : string := "Conversion Complete!".

Definition not_found_notice (fbx_file : string) : string :=
  "❌ Not found: " ++ fbx_file.
Definition importing_notice (fbx_file : string) : string :=
  "📥 Importing: " ++ fbx_file ++ "...".
Definition found_notice (mesh_count armature_count : nat) : string :=
  "   Found: " ++ Py.str_of_nat mesh_count ++ " meshes, "
  ++ Py.str_of_nat armature_count ++ " armatures".
Definition exporting_notice (fbx_file : string) : string :=
  "📤 Exporting: " ++ glb_name fbx_file ++ "...".
Definition converted_notice (fbx_file : string) : string :=
  "✅ Converted: " ++ fbx_file ++ Py.newline.
Definition error_notice (fbx_file : string) (e : Exception) : string :=
  "❌ Error converting " ++ fbx_file ++ ": " ++ str e ++ Py.newline.

(** Lines 43-44, [# Clear scene]. *)
Definition clear_scene : M unit :=
  call (object_select_all "SELECT") ;;
  call object_delete.

(** The body of one of the loops of lines 47-55. *)
Definition purge_step (k : Kind) (block : Block H) : M unit :=
  n <- call (block_users block) ;;
  if Nat.eqb n 0 then call (data_remove k block) else ret tt.

(** One of the loops of lines 47-55. *)
Definition purge (k : Kind) : M unit :=
  visited <- call (data_iter k) ;;
  for_each visited (purge_step k).

(** Lines 47-55, [# Clear orphan data]. *)
Definition clear_orphan_data : M unit :=
  purge meshes ;;
  purge armatures ;;
  purge actions.

(** Lines 43-55: the scene reset. *)
Definition reset : M unit :=
  clear_scene ;;
  clear_orphan_data.

(** [len([obj for obj in bpy.data.objects if obj.type == type])] *)
Definition count_objects (type : string) : M nat :=
  objs <- call data_objects ;;
  kept <- comprehension objs (fun obj =>
            t <- call (object_type obj) ;;
            ret (String.eqb t type)) ;;
  ret (List.length kept).

(** Lines 58-59, [# Import FBX]. *)
Definition import_fbx (fbx_file : string) : M unit :=
  print (importing_notice fbx_file) ;;
  call (import_scene_fbx (fbx_path fbx_file)).

(** Lines 62-64, [# Check what we got]. *)
Definition check_what_we_got : M unit :=
  mesh_count <- count_objects "MESH" ;;
  armature_count <- count_objects "ARMATURE" ;;
  print (found_notice mesh_count armature_count).

(** Line 67, [# Select all for export], and the notice of line 70. *)
Definition select_all_for_export (fbx_file : string) : M unit :=
  call (object_select_all "SELECT") ;;
  print (exporting_notice fbx_file).

(** Lines 71-76. *)
Definition export_glb (fbx_file : string) : M unit :=
  call (export_scene_gltf (glb_path fbx_file) "GLB" true true).

(** Lines 58-78: what follows the reset inside [try]. *)
Definition import_and_export (fbx_file : string) : M unit :=
  import_fbx fbx_file ;;
  check_what_we_got ;;
  select_all_for_export fbx_file ;;
  export_glb fbx_file ;;
  print (converted_notice fbx_file).

(** Lines 42-70: the body of [try] up to the export. *)
Definition before_export (fbx_file : string) : M unit :=
  reset ;;
  import_fbx fbx_file ;;
  check_what_we_got ;;
  select_all_for_export fbx_file.

(** Lines 42-78: the body of [try]. *)
Definition convert (fbx_file : string) : M unit :=
  reset ;;
  import_and_export fbx_file.

(** Lines 80-81: the handler. *)
Definition on_error (fbx_file : string) (e : Exception) : M unit :=
  print (error_notice fbx_file e).

(** Lines 34-81: the body of the loop.  [continue] ends it. *)
Definition iteration (fbx_file : string) : M unit :=
  found <- path_exists (fbx_path fbx_file) ;;
  if negb found
  then print (not_found_notice fbx_file)
  else catch (convert fbx_file) (on_error fbx_file).

(** Lines 29-31. *)
Definition opening : list string :=
  [ Py.newline ++ rule; "FBX to GLB Batch Converter"; rule ++ Py.newline ].

(** Lines 83-90. *)
Definition closing : list string :=
  [ rule; banner; rule;
    Py.newline ++ "Babylon files saved to: " ++ fbx_folder;
    Py.newline ++ "Next steps:";
    "1. Check that .babylon files were created";
    "2. Update Player.ts to load .babylon files";
    "3. Refresh browser and test animations!" ].

(** Lines 29-90 for an arbitrary list in the place of [fbx_files]. *)
Definition batch (files : list string) : M unit :=
  for_each opening print ;;
  for_each files iteration ;;
  for_each closing print.

Definition main : M unit := batch fbx_files.

End Script.

Arguments host {H}.
Arguments stdout {H}.
Arguments calls {H}.

(** [f[:-4]]: the file name without its four-character extension. *)
Definition stem (f : string) : string :=
  String.substring 0 (String.length f - 4) f.

(** How many of [types] are [type]. *)
Definition count_type (type : string) (types : list string) : nat :=
  List.length (filter (fun t => String.eqb t type) types).

(** The kinds of line the loop prints for a file. *)
Definition notice (fbx_file line : string) : Prop :=
  line = not_found_notice fbx_file
  \/ line = importing_notice fbx_file
  \/ (exists mesh_count armature_count, line = found_notice mesh_count armature_count)
  \/ line = exporting_notice fbx_file
  \/ line = converted_notice fbx_file
  \/ (exists e, line = error_notice fbx_file e).

(** [m] only adds to the requests and to the lines, requests in [P] and
    lines in [Q]. *)
Definition emits (H : Host) (P : Call (Block H) (Obj H) -> Prop)
  (Q : string -> Prop) (A : Type) (m : M H A) : Prop :=
  forall w, exists t l,
    calls (snd (m w)) = (calls w ++ t)%list
    /\ stdout (snd (m w)) = (stdout w ++ l)%list
    /\ Forall P t /\ Forall Q l.


(** No [print] raises: the standard output takes every line. *)
Definition prints_return (H : Host) : Prop :=
  forall line s, print_raises H line s = None.

(** ** What the script relies on in Blender

    The script's requests are opaque; what they do to the scene is stated
    here, once, as the contract of a host that behaves like Blender.  It
    spells out the four capabilities the script needs of its host: select
    and delete the objects of the scene, enumerate and remove unreferenced
    mesh, armature and action blocks, import a scene from an FBX file,
    export the scene to a GLB file.  [View] is what can be observed of the
    host's state, [Blender] what the requests do to it.  Nothing in it
    speaks of the script.

    The operators [select_all] and [delete] act on what the context offers
    them: outside object mode their poll fails and the call raises, and an
    object that is hidden, unselectable or outside the active view layer
    is not selected, hence not deleted.  [plain] holds of the states in
    which they reach every object and [delete] takes it out of
    [bpy.data.objects]: Blender is in object mode, and every object of
    [bpy.data.objects] is in the active view layer, visible and
    selectable, and kept by nothing but the scene.  The contract promises
    what [select_all] and [delete] do in these states only. *)

Section Contract.

Variable H : Host.

Record View := {
  (** [bpy.data.objects], selection flag and [type] of an object *)
  objects : state H -> list (Obj H);
  selected : state H -> Obj H -> bool;
  type_of : state H -> Obj H -> string;
  (** object mode, every object within reach of the operators *)
  plain : state H -> Prop;
  (** [bpy.data.meshes], [.armatures], [.actions] and [block.users] *)
  blocks : Kind -> state H -> list (Block H);
  users : state H -> Block H -> nat;
  (** the types of the objects the importer makes of the FBX file at a path *)
  fbx_types : string -> state H -> list string;
  (** the GLB file at a path, and what the exporter writes of a scene *)
  Glb : Type;
  glb_at : string -> state H -> option Glb;
  glb_of : state H -> Glb
}.

Record Blender (V : View) : Prop := {
  (** reading [bpy.data] changes nothing *)
  iter_spec : forall k s,
    bpy_perform H (data_iter k) s = (inr (blocks V k s), s);
  blocks_nodup : forall k s, NoDup (blocks V k s);
  users_spec : forall k b s, In b (blocks V k s) ->
    bpy_perform H (block_users b) s = (inr (users V s b), s);
  objects_spec : forall s,
    bpy_perform H data_objects s = (inr (objects V s), s);
  type_spec : forall o s, In o (objects V s) ->
    bpy_perform H (object_type o) s = (inr (type_of V s o), s);
  (** in a plain state [select_all(action='SELECT')] selects every object
      and touches nothing else *)
  select_all_spec : forall s, plain V s -> exists s',
    bpy_perform H (object_select_all "SELECT") s = (inr tt, s')
    /\ List.length (objects V s') = List.length (objects V s)
    /\ (forall o, In o (objects V s') -> selected V s' o = true)
    /\ (forall k, blocks V k s' = blocks V k s)
    /\ (forall b, users V s' b = users V s b)
    /\ (forall p, fbx_types V p s' = fbx_types V p s)
    /\ plain V s';
  (** in a plain state [delete()] deletes the selected objects; user
      counts change through the deleted objects only *)
  delete_spec : forall s, plain V s -> exists s',
    bpy_perform H object_delete s = (inr tt, s')
    /\ objects V s' = filter (fun o => negb (selected V s o)) (objects V s)
    /\ (forall k, blocks V k s' = blocks V k s)
    /\ ((forall o, In o (objects V s) -> selected V s o = false) ->
        forall b, users V s' b = users V s b)
    /\ (forall p, fbx_types V p s' = fbx_types V p s)
    /\ plain V s';
  (** [remove(block)] of an unused block takes this block out of its
      collection; it changes no user count in this collection or in one
      purged before it *)
  remove_spec : forall k b s, In b (blocks V k s) -> users V s b = 0 ->
    exists s',
    bpy_perform H (data_remove k b) s = (inr tt, s')
    /\ objects V s' = objects V s
    /\ (forall b', In b' (blocks V k s') <-> In b' (blocks V k s) /\ b' <> b)
    /\ (forall k', k' <> k -> blocks V k' s' = blocks V k' s)
    /\ (forall k' b', rank k' <= rank k -> In b' (blocks V k' s') ->
        users V s' b' = users V s b')
    /\ (forall p, fbx_types V p s' = fbx_types V p s)
    /\ (plain V s -> plain V s');
  (** an import that returns has added the objects of the file, visible
      and selectable, and has left the mode as it was *)
  import_spec : forall p s s',
    bpy_perform H (import_scene_fbx p) s = (inr tt, s') ->
    exists new,
      objects V s' = (objects V s ++ new)%list
      /\ map (type_of V s') new = fbx_types V p s
      /\ (plain V s -> plain V s');
  (** an export that returns has written the file, whatever was there *)
  export_spec : forall p s s',
    bpy_perform H (export_scene_gltf p "GLB" true true) s = (inr tt, s') ->
    glb_at V p s' = Some (glb_of V s)
}.

End Contract.

(** ** A reference host

    A small Blender: objects that use data blocks and may be hidden, data
    blocks with a fake user or without, object mode and edit mode, FBX and
    GLB files on a disk, and a standard output that takes every line
    ([platform]) or the lines in ASCII only ([legacy]).  It is the host at
    which the theorems below are instantiated. *)

Module Ref.

Record object := {
  ob_name : nat;
  ob_type : string;
  ob_select : bool;
  (** hidden, unselectable or outside the active view layer: out of the
      reach of the operators *)
  ob_hide : bool;
  ob_uses : list (nat * nat)
}.

Record datablock := {
  bl_kind : Kind;
  bl_name : nat;
  use_fake_user : bool
}.

(** [fbx_bad_rig] is an FBX file whose armature the importer cannot
    build: it gives up in edit mode. *)
Inductive file :=
| fbx (nodes : list string)
| fbx_bad_rig
| glb (exported : list object)
| locked.

Record scene := {
  sc_objects : list object;
  sc_data : list datablock;
  sc_files : list (string * file);
  sc_next : nat;
  sc_edit_mode : bool
}.

Definition kind_eqb (a b : Kind) : bool := Nat.eqb (rank a) (rank b).

Definition datablock_eqb (a b : datablock) : bool :=
  kind_eqb (bl_kind a) (bl_kind b)
  && Nat.eqb (bl_name a) (bl_name b)
  && Bool.eqb (use_fake_user a) (use_fake_user b).

Definition key (b : datablock) : nat * nat := (rank (bl_kind b), bl_name b).

Definition key_eqb (x y : nat * nat) : bool :=
  Nat.eqb (fst x) (fst y) && Nat.eqb (snd x) (snd y).

Definition refs (x : nat * nat) (o : object) : nat :=
  List.length (filter (key_eqb x) (ob_uses o)).

(** [block.users]: the objects that use the block, and the fake user. *)
Definition count_users (s : scene) (b : datablock) : nat :=
  list_sum (map (refs (key b)) (sc_objects s))
  + (if use_fake_user b then 1 else 0).

Fixpoint dedup (l : list datablock) : list datablock :=
  match l with
  | [] => []
  | b :: l' => b :: filter (fun b' => negb (datablock_eqb b' b)) (dedup l')
  end.

Definition collection (k : Kind) (s : scene) : list datablock :=
  dedup (filter (fun b => kind_eqb (bl_kind b) k) (sc_data s)).

Fixpoint lookup (p : string) (fs : list (string * file)) : option file :=
  match fs with
  | [] => None
  | (q, f) :: fs' => if String.eqb p q then Some f else lookup p fs'
  end.

Definition write (p : string) (f : file) (fs : list (string * file)) :=
  (p, f) :: filter (fun qf => negb (String.eqb p (fst qf))) fs.

Definition nodes_at (p : string) (s : scene) : list string :=
  match lookup p (sc_files s) with
  | Some (fbx nodes) => nodes
  | _ => []
  end.

Definition exported_at (p : string) (s : scene) : option (list object) :=
  match lookup p (sc_files s) with
  | Some (glb exported) => Some exported
  | _ => None
  end.

(** Selected, as the operators and the exporter see it. *)
Definition chosen (o : object) : bool := ob_select o && negb (ob_hide o).

Definition selection (s : scene) : list object :=
  filter chosen (sc_objects s).

(** The selection flag of a hidden object is out of reach. *)
Definition set_select (v : bool) (o : object) : object :=
  {| ob_name := ob_name o; ob_type := ob_type o;
     ob_select := if ob_hide o then ob_select o else v;
     ob_hide := ob_hide o; ob_uses := ob_uses o |}.

Definition unlink (x : nat * nat) (o : object) : object :=
  {| ob_name := ob_name o; ob_type := ob_type o; ob_select := ob_select o;
     ob_hide := ob_hide o;
     ob_uses := filter (fun y => negb (key_eqb x y)) (ob_uses o) |}.

(** Object mode, and no object hidden. *)
Definition plain_scene (s : scene) : Prop :=
  sc_edit_mode s = false
  /\ forallb (fun o => negb (ob_hide o)) (sc_objects s) = true.

(** What the importer makes of one node of an FBX file: a mesh object and
    its mesh, an armature object with its armature and an action that the
    importer gives a fake user, or an object without data. *)
Definition spawn (n : nat) (type : string) : object * list datablock :=
  if String.eqb type "MESH" then
    ({| ob_name := n; ob_type := type; ob_select := true; ob_hide := false;
        ob_uses := [(rank meshes, n)] |},
     [{| bl_kind := meshes; bl_name := n; use_fake_user := false |}])
  else if String.eqb type "ARMATURE" then
    ({| ob_name := n; ob_type := type; ob_select := true; ob_hide := false;
        ob_uses := [(rank armatures, n); (rank actions, n)] |},
     [{| bl_kind := armatures; bl_name := n; use_fake_user := false |};
      {| bl_kind := actions; bl_name := n; use_fake_user := true |}])
  else
    ({| ob_name := n; ob_type := type; ob_select := true; ob_hide := false;
        ob_uses := [] |},
     []).

Fixpoint spawn_all (n : nat) (types : list string) : list object * list datablock :=
  match types with
  | [] => ([], [])
  | t :: ts =>
      let (o, bs) := spawn n t in
      let (os, bss) := spawn_all (S n) ts in
      (o :: os, (bs ++ bss)%list)
  end.

(** What an operator raises when its poll fails. *)
Definition poll_failed (operator : string) : Exception :=
  mkException ("Operator bpy.ops." ++ operator
               ++ ".poll() failed, context is incorrect").

Definition perform (X : Type) (r : Request datablock object X) (s : scene)
  : (Exception + X) * scene :=
  match r in Request _ _ X return (Exception + X) * scene with
  | object_select_all action =>
      if sc_edit_mode s then (inl (poll_failed "object.select_all"), s)
      else if String.eqb action "SELECT" then
        (inr tt, {| sc_objects := map (set_select true) (sc_objects s);
                    sc_data := sc_data s; sc_files := sc_files s;
                    sc_next := sc_next s; sc_edit_mode := false |})
      else if String.eqb action "DESELECT" then
        (inr tt, {| sc_objects := map (set_select false) (sc_objects s);
                    sc_data := sc_data s; sc_files := sc_files s;
                    sc_next := sc_next s; sc_edit_mode := false |})
      else (inl (mkException ("enum " ++ action ++ " not found")), s)
  | object_delete =>
      if sc_edit_mode s then (inl (poll_failed "object.delete"), s)
      else
        (inr tt, {| sc_objects := filter (fun o => negb (chosen o)) (sc_objects s);
                    sc_data := sc_data s; sc_files := sc_files s;
                    sc_next := sc_next s; sc_edit_mode := false |})
  | data_iter k => (inr (collection k s), s)
  | block_users b =>
      if existsb (datablock_eqb b) (sc_data s)
      then (inr (count_users s b), s)
      else (inl (mkException "StructRNA has been removed"), s)
  | data_remove k b =>
      if kind_eqb (bl_kind b) k && existsb (datablock_eqb b) (sc_data s) then
        (inr tt, {| sc_objects := map (unlink (key b)) (sc_objects s);
                    sc_data := filter (fun b' => negb (datablock_eqb b' b)) (sc_data s);
                    sc_files := sc_files s; sc_next := sc_next s;
                    sc_edit_mode := sc_edit_mode s |})
      else (inl (mkException "block not in collection"), s)
  | import_scene_fbx p =>
      match lookup p (sc_files s) with
      | Some (fbx nodes) =>
          let (os, bs) := spawn_all (sc_next s) nodes in
          (inr tt, {| sc_objects := sc_objects s ++ os;
                      sc_data := sc_data s ++ bs;
                      sc_files := sc_files s;
                      sc_next := sc_next s + List.length nodes;
                      sc_edit_mode := sc_edit_mode s |})
      | Some fbx_bad_rig =>
          (inl (mkException "armature could not be built"),
           {| sc_objects := sc_objects s; sc_data := sc_data s;
              sc_files := sc_files s; sc_next := sc_next s;
              sc_edit_mode := true |})
      | Some _ => (inl (mkException "not an FBX file"), s)
      | None => (inl (mkException "No such file or directory"), s)
      end
  | data_objects => (inr (sc_objects s), s)
  | object_type o => (inr (ob_type o), s)
  | export_scene_gltf p fmt _ _ =>
      match lookup p (sc_files s) with
      | Some locked => (inl (mkException "Permission denied"), s)
      | _ =>
          if String.eqb fmt "GLB" then
            (inr tt, {| sc_objects := sc_objects s; sc_data := sc_data s;
                        sc_files := write p (glb (selection s)) (sc_files s);
                        sc_next := sc_next s;
                        sc_edit_mode := sc_edit_mode s |})
          else (inl (mkException ("enum " ++ fmt ++ " not found")), s)
      end
  end.

(** [ntpath.join] of a folder and a plain file name. *)
Definition join (folder name : string) : string := folder ++ "\" ++ name.

Definition exists_ (p : string) (s : scene) : bool :=
  match lookup p (sc_files s) with
  | Some _ => true
  | None => false
  end.

(** A standard output in UTF-8. *)
Definition platform : Host := {|
  state := scene;
  Block := datablock;
  Obj := object;
  os_path_join := join;
  os_path_exists := exists_;
  print_raises := fun _ _ => None;
  bpy_perform := perform
|}.

Definition seven_bit (c : ascii) : bool :=
  match c with Ascii _ _ _ _ _ _ _ b7 => negb b7 end.

Fixpoint ascii_only (s : string) : bool :=
  match s with
  | EmptyString => true
  | String c rest => seven_bit c && ascii_only rest
  end.

(** What [print] raises when the encoding of the stream has no code for a
    character: a [UnicodeEncodeError]. *)
Definition unencodable : Exception :=
  mkException "'charmap' codec can't encode character".

(** A standard output in a legacy code page, of which only the ASCII part
    is modelled: the marks of the notices have no code in it. *)
Definition legacy : Host := {|
  state := scene;
  Block := datablock;
  Obj := object;
  os_path_join := join;
  os_path_exists := exists_;
  print_raises := fun line _ => if ascii_only line then None else Some unencodable;
  bpy_perform := perform
|}.

Definition view : View platform :=
  @Build_View platform
    sc_objects (fun _ o => chosen o) (fun _ o => ob_type o)
    plain_scene
    collection count_users nodes_at
    (list object) exported_at selection.

(** A world of the reference host with nothing printed and nothing asked. *)
Definition world (s : scene) : World platform :=
  @Build_World platform s [] [].

Definition legacy_world (s : scene) : World legacy :=
  @Build_World legacy s [] [].

End Ref.

(** ** A disk and a startup scene for the reference host

    The startup scene holds a cube and an action that a fake user keeps.
    On the disk: two FBX files that convert, one of them over a GLB that is
    already there; a file that is no FBX; an FBX whose destination cannot be
    written; an FBX whose armature cannot be built; and no
    ["great sword attack.fbx"]. *)

Module Demo.

Import Ref.

Definition cube : object :=
  {| ob_name := 0; ob_type := "MESH"; ob_select := false; ob_hide := false;
     ob_uses := [(rank meshes, 0)] |}.

Definition hidden_cube : object :=
  {| ob_name := 0; ob_type := "MESH"; ob_select := false; ob_hide := true;
     ob_uses := [(rank meshes, 0)] |}.

Definition cube_mesh : datablock :=
  {| bl_kind := meshes; bl_name := 0; use_fake_user := false |}.

Definition old_action : datablock :=
  {| bl_kind := actions; bl_name := 1; use_fake_user := true |}.

Definition source (name : string) : string := join fbx_folder name.
Definition target (name : string) : string := join output_folder name.

Definition disk : list (string * file) :=
  [ (source "great sword idle.fbx", fbx ["ARMATURE"]);
    (source "great sword walk.fbx", fbx ["MESH"; "ARMATURE"]);
    (source "great sword run.fbx", locked);
    (source "great sword slash.fbx", fbx ["MESH"]);
    (source "great sword jump.fbx", fbx_bad_rig);
    (target "great sword idle.glb", glb [cube]);
    (target "great sword slash.glb", locked) ].

Definition startup : scene :=
  {| sc_objects := [cube]; sc_data := [cube_mesh; old_action];
     sc_files := disk; sc_next := 2; sc_edit_mode := false |}.

(** The startup scene with the cube hidden. *)
Definition hidden_startup : scene :=
  {| sc_objects := [hidden_cube]; sc_data := [cube_mesh; old_action];
     sc_files := disk; sc_next := 2; sc_edit_mode := false |}.

(** The startup scene, left in edit mode. *)
Definition edit_startup : scene :=
  {| sc_objects := [cube]; sc_data := [cube_mesh; old_action];
     sc_files := disk; sc_next := 2; sc_edit_mode := true |}.

Definition start : World platform := world startup.
Definition hidden_start : World platform := world hidden_startup.
Definition edit_start : World platform := world edit_startup.

(** The same scenes, with a standard output in a legacy code page. *)
Definition legacy_start : World legacy := legacy_world startup.
Definition legacy_edit_start : World legacy := legacy_world edit_startup.

(** The world after the conversion of ["great sword idle.fbx"]. *)
Definition after_idle : World platform :=
  snd (for_each ["great sword idle.fbx"] (@iteration platform) start).

(** The world in which the conversion of [name], started in [w], ends. *)
Definition attempt (name : string) (w : World platform) : World platform :=
  snd (convert name
         (note (os_path_exists_call (fbx_path platform name)) (host w) w)).


End Demo.

(** ** Notions for the properties of the whole script *)

(** The lines of one item whose iteration returned, by where the attempt
    ended: the file was not found; the reset or the print of the importing
    notice raised; the import, a count or the print of the counts raised;
    the selection or the print of the exporting notice raised; the export
    or the print of the converted notice raised; the file was converted. *)
Definition item_lines (f : string) (l : list string) : Prop :=
  l = [not_found_notice f]
  \/ (exists e, l = [error_notice f e])
  \/ (exists e, l = [importing_notice f; error_notice f e])
  \/ (exists m a e,
        l = [importing_notice f; found_notice m a; error_notice f e])
  \/ (exists m a e,
        l = [importing_notice f; found_notice m a; exporting_notice f;
             error_notice f e])
  \/ (exists m a,
        l = [importing_notice f; found_notice m a; exporting_notice f;
             converted_notice f]).

(** The requests a batch over [files] may send: existence tests and
    imports of the source path of a listed file, exports to the
    destination path of a listed file in format GLB with both options on,
    [select_all] with action SELECT, and the requests of the purge and of
    the counts. *)
Definition allowed (H : Host) (files : list string)
  (c : Call (Block H) (Obj H)) : Prop :=
  match c with
  | os_path_exists_call p => exists f, In f files /\ p = fbx_path H f
  | bpy r =>
      match r with
      | object_select_all action => action = "SELECT"
      | import_scene_fbx p => exists f, In f files /\ p = fbx_path H f
      | export_scene_gltf p fmt anim sampling =>
          (exists f, In f files /\ p = glb_path H f)
          /\ fmt = "GLB" /\ anim = true /\ sampling = true
      | _ => True
      end
  end.

Section Tally.

Variables Block Obj : Type.

Definition is_exists_test (c : Call Block Obj) : bool :=
  match c with os_path_exists_call _ => true | bpy _ => false end.

Definition is_import (c : Call Block Obj) : bool :=
  match c with
  | bpy r => match r with import_scene_fbx _ => true | _ => false end
  | _ => false
  end.

Definition is_export (c : Call Block Obj) : bool :=
  match c with
  | bpy r => match r with export_scene_gltf _ _ _ _ => true | _ => false end
  | _ => false
  end.

(** Neither an existence test nor an import nor an export. *)
Definition quiet (c : Call Block Obj) : Prop :=
  is_exists_test c = false /\ is_import c = false /\ is_export c = false.

Definition how_many (p : Call Block Obj -> bool) (t : list (Call Block Obj)) : nat :=
  List.length (filter p t).

(** The request reads or removes the block [b]. *)
Definition about (b : Block) (c : Call Block Obj) : Prop :=
  match c with
  | bpy r =>
      match r with
      | block_users b' => b' = b
      | data_remove _ b' => b' = b
      | _ => False
      end
  | _ => False
  end.

(** The request removes the block [b]. *)
Definition removes (b : Block) (c : Call Block Obj) : Prop :=
  match c with
  | bpy r => match r with data_remove _ b' => b' = b | _ => False end
  | _ => False
  end.

(** No request is about a block that an earlier request removed. *)
Fixpoint never_after_removal (t : list (Call Block Obj)) : Prop :=
  match t with
  | [] => True
  | c :: t' =>
      (forall b, removes b c -> Forall (fun c' => ~ about b c') t')
      /\ never_after_removal t'
  end.

End Tally.

(** The lines of an item whose iteration a raising [print] ended: the
    notices of the steps that had returned. *)
Definition cut_lines (f : string) (l : list string) : Prop :=
  l = []
  \/ l = [importing_notice f]
  \/ (exists m a, l = [importing_notice f; found_notice m a])
  \/ (exists m a,
        l = [importing_notice f; found_notice m a; exporting_notice f]).

(** A scene of the reference host without objects: two unused meshes and
    one that a fake user keeps. *)
Module Litter.

Import Ref.

Definition mesh (n : nat) (fake : bool) : datablock :=
  {| bl_kind := meshes; bl_name := n; use_fake_user := fake |}.

Definition littered : scene :=
  {| sc_objects := []; sc_data := [mesh 0 false; mesh 1 true; mesh 2 false];
     sc_files := Demo.disk; sc_next := 3; sc_edit_mode := false |}.

End Litter.

(** * Theorems *)

(** ** The monad *)

Section Monad_facts.

Variable H : Host.
Implicit Types w : World H.

Lemma bind_run A B (m : M H A) (k : A -> M H B) w :
  bind m k w
  = match m w with
    | (inl e, w') => (inl e, w')
    | (inr a, w') => k a w'
    end.
Proof. reflexivity. Qed.

Lemma ret_run A (a : A) w : (ret a : M H A) w = (inr a, w).
Proof. reflexivity. Qed.

Lemma bind_returns A B (m : M H A) (k : A -> M H B) w a w1 :
  m w = (inr a, w1) -> bind m k w = k a w1.
Proof. intros E. rewrite bind_run, E. reflexivity. Qed.

Lemma bind_raises A B (m : M H A) (k : A -> M H B) w e w1 :
  m w = (inl e, w1) -> bind m k w = (inl e, w1).
Proof. intros E. rewrite bind_run, E. reflexivity. Qed.


Lemma bind_assoc A B C (m : M H A) (k : A -> M H B) (k' : B -> M H C) w :
  bind (bind m k) k' w = bind m (fun a => bind (k a) k') w.
Proof.
  rewrite !bind_run. destruct (m w) as [[e | a] w1]; reflexivity.
Qed.

Lemma catch_run A (m : M H A) (h : Exception -> M H A) w :
  catch m h w
  = match m w with
    | (inl e, w') => h e w'
    | (inr a, w') => (inr a, w')
    end.
Proof. reflexivity. Qed.

Lemma call_run X (r : Request (Block H) (Obj H) X) w :
  call r w
  = (fst (bpy_perform H r (host w)),
     note (bpy r) (snd (bpy_perform H r (host w))) w).
Proof. unfold call. destruct (bpy_perform H r (host w)); reflexivity. Qed.

Lemma for_each_app A (xs ys : list A) (body : A -> M H unit) w :
  for_each (xs ++ ys) body w
  = match for_each xs body w with
    | (inl e, w') => (inl e, w')
    | (inr _, w') => for_each ys body w'
    end.
Proof.
  revert w. induction xs as [| x xs IH]; intros w.
  - reflexivity.
  - change (for_each ((x :: xs) ++ ys) body)
      with (bind (body x) (fun _ => for_each (xs ++ ys) body)).
    change (for_each (x :: xs) body)
      with (bind (body x) (fun _ => for_each xs body)).
    rewrite !bind_run. destruct (body x w) as [[e | []] w1].
    + reflexivity.
    + apply IH.
Qed.


(** *** Printing *)

Lemma print_run (line : string) w :
  print line w
  = match print_raises H line (host w) with
    | Some e => (inl e, w)
    | None => (inr tt, say line w)
    end.
Proof. reflexivity. Qed.

Lemma print_returns (line : string) w :
  print_raises H line (host w) = None -> print line w = (inr tt, say line w).
Proof. intros E. rewrite print_run, E. reflexivity. Qed.

Lemma print_raised (line : string) w e :
  print_raises H line (host w) = Some e -> print line w = (inl e, w).
Proof. intros E. rewrite print_run, E. reflexivity. Qed.

(** A print sends no request and leaves the host as it is, whether it
    returns or raises. *)
Lemma print_host (line : string) w : host (snd (print line w)) = host w.
Proof.
  rewrite print_run. destruct (print_raises H line (host w)); reflexivity.
Qed.

Lemma print_calls (line : string) w : calls (snd (print line w)) = calls w.
Proof.
  rewrite print_run. destruct (print_raises H line (host w)); reflexivity.
Qed.

Lemma for_each_print (lines : list string) w :
  (forall l, In l lines -> print_raises H l (host w) = None) ->
  for_each lines (@print H) w
  = (inr tt, {| host := host w; stdout := stdout w ++ lines; calls := calls w |}).
Proof.
  revert w. induction lines as [| l lines IH]; intros w Hp.
  - cbn. rewrite app_nil_r. destruct w; reflexivity.
  - change (for_each (l :: lines) (@print H))
      with (bind (print l) (fun _ => for_each lines (@print H))).
    rewrite bind_run, print_returns by (apply Hp; left; reflexivity).
    rewrite IH by (intros l' Hl'; apply Hp; right; exact Hl').
    cbn. rewrite <- app_assoc. reflexivity.
Qed.

Lemma for_each_print_host (lines : list string) w :
  host (snd (for_each lines (@print H) w)) = host w
  /\ calls (snd (for_each lines (@print H) w)) = calls w.
Proof.
  revert w. induction lines as [| l lines IH]; intros w; [split; reflexivity |].
  change (for_each (l :: lines) (@print H))
    with (bind (print l) (fun _ => for_each lines (@print H))).
  rewrite bind_run, print_run.
  destruct (print_raises H l (host w)); [split; reflexivity |].
  destruct (IH (say l w)) as [Eh Ec]. rewrite Eh, Ec. split; reflexivity.
Qed.

(** *** Programs that only add requests and lines *)

Section Emits.

Variable P : Call (Block H) (Obj H) -> Prop.
Variable Q : string -> Prop.

Lemma emits_ret A (a : A) : emits P Q (ret a : M H A).
Proof.
  intros w. exists [], []. cbn. rewrite !app_nil_r. auto.
Qed.

Lemma emits_bind A B (m : M H A) (k : A -> M H B) :
  emits P Q m -> (forall a, emits P Q (k a)) -> emits P Q (bind m k).
Proof.
  intros Hm Hk w. rewrite bind_run.
  destruct (Hm w) as (t & l & Et & El & Ft & Fl).
  destruct (m w) as [[e | a] w1]; cbn [snd] in *.
  - exists t, l. auto.
  - destruct (Hk a w1) as (t' & l' & Et' & El' & Ft' & Fl').
    exists (t ++ t')%list, (l ++ l')%list.
    rewrite Et', El', Et, El, !app_assoc.
    repeat split; try reflexivity; apply Forall_app; auto.
Qed.

Lemma emits_catch A (m : M H A) (h : Exception -> M H A) :
  emits P Q m -> (forall e, emits P Q (h e)) -> emits P Q (catch m h).
Proof.
  intros Hm Hh w. rewrite catch_run.
  destruct (Hm w) as (t & l & Et & El & Ft & Fl).
  destruct (m w) as [[e | a] w1]; cbn [snd] in *.
  - destruct (Hh e w1) as (t' & l' & Et' & El' & Ft' & Fl').
    exists (t ++ t')%list, (l ++ l')%list.
    rewrite Et', El', Et, El, !app_assoc.
    repeat split; try reflexivity; apply Forall_app; auto.
  - exists t, l. auto.
Qed.

Lemma emits_print (line : string) : Q line -> emits P Q (@print H line).
Proof.
  intros Hq w. rewrite print_run.
  destruct (print_raises H line (host w)).
  - exists [], []. cbn. rewrite !app_nil_r. auto.
  - exists [], [line]. cbn. rewrite app_nil_r. auto.
Qed.

Lemma emits_call X (r : Request (Block H) (Obj H) X) :
  P (bpy r) -> emits P Q (call r).
Proof.
  intros Hp w. rewrite call_run. exists [bpy r], []. cbn.
  rewrite app_nil_r. auto.
Qed.

Lemma emits_path_exists (path : string) :
  P (os_path_exists_call path) -> emits P Q (@path_exists H path).
Proof.
  intros Hp w. exists [os_path_exists_call path], []. cbn.
  rewrite app_nil_r. auto.
Qed.

Lemma emits_for_each A (xs : list A) (body : A -> M H unit) :
  (forall x, emits P Q (body x)) -> emits P Q (for_each xs body).
Proof.
  intros Hb. induction xs as [| x xs IH].
  - apply emits_ret.
  - apply emits_bind; [apply Hb | intros _; exact IH].
Qed.

Lemma emits_comprehension A (xs : list A) (test : A -> M H bool) :
  (forall x, emits P Q (test x)) -> emits P Q (comprehension xs test).
Proof.
  intros Ht. induction xs as [| x xs IH].
  - apply emits_ret.
  - apply emits_bind; [apply Ht | intros keep].
    apply emits_bind; [exact IH | intros tl; apply emits_ret].
Qed.

End Emits.

Lemma emits_weaken (P P' : Call (Block H) (Obj H) -> Prop) (Q Q' : string -> Prop)
  A (m : M H A) :
  (forall c, P c -> P' c) -> (forall l, Q l -> Q' l) ->
  emits P Q m -> emits P' Q' m.
Proof.
  intros HP HQ Hm w. destruct (Hm w) as (t & l & Et & El & Ft & Fl).
  exists t, l. repeat split; auto.
  - eapply Forall_impl; [exact HP | exact Ft].
  - eapply Forall_impl; [exact HQ | exact Fl].
Qed.

End Monad_facts.

(** ** File names *)



(** The replacement is of every occurrence, and of lower case only. *)
Example replace_everywhere :
  Py.replace ".fbx" ".glb" "a.fbx.b.fbx" = "a.glb.b.glb"
  /\ Py.replace ".fbx" ".glb" "A.FBX" = "A.FBX".
Proof. split; reflexivity. Qed.

(** C4. For every file name of the job list, the name of the destination
    file is the stem of the name followed by [.glb], the stem being the
    name without its [.fbx]; nothing else of the name changes.  For
    ["great sword attack.fbx"] it is ["great sword attack.glb"]. *)
Theorem naming_contract (f : string) :
  In f fbx_files ->
  f = stem f ++ ".fbx"
  /\ glb_name f = stem f ++ ".glb"
  /\ Py.contains ".fbx" (stem f) = false.
Proof.
  unfold fbx_files. intros Hin.
  repeat (destruct Hin as [<- | Hin]; [repeat split; reflexivity |]).
  contradiction.
Qed.

(** ** The loop, for every host *)

Section Control.

Variable H : Host.
Implicit Types w : World H.

Lemma purge_emits (Q : string -> Prop) (k : Kind) :
  emits (@is_bpy _ _) Q (@purge H k).
Proof.
  apply emits_bind; [apply emits_call; exact I | intros visited].
  apply emits_for_each. intros block.
  apply emits_bind; [apply emits_call; exact I | intros n].
  destruct (Nat.eqb n 0); [apply emits_call; exact I | apply emits_ret].
Qed.

Lemma clear_orphan_data_emits (Q : string -> Prop) :
  emits (@is_bpy _ _) Q (@clear_orphan_data H).
Proof.
  apply emits_bind; [apply purge_emits | intros _].
  apply emits_bind; [apply purge_emits | intros _; apply purge_emits].
Qed.

Lemma reset_emits (Q : string -> Prop) : emits (@is_bpy _ _) Q (@reset H).
Proof.
  apply emits_bind.
  - apply emits_bind; [apply emits_call; exact I | intros _; apply emits_call; exact I].
  - intros _. apply clear_orphan_data_emits.
Qed.

Lemma count_objects_emits (Q : string -> Prop) (type : string) :
  emits (@is_bpy _ _) Q (@count_objects H type).
Proof.
  apply emits_bind; [apply emits_call; exact I | intros objs].
  apply emits_bind; [| intros kept; apply emits_ret].
  apply emits_comprehension. intros obj.
  apply emits_bind; [apply emits_call; exact I | intros t; apply emits_ret].
Qed.

Lemma import_and_export_emits (f : string) :
  emits (@is_bpy _ _) (notice f) (@import_and_export H f).
Proof.
  unfold import_and_export, import_fbx, check_what_we_got,
    select_all_for_export, export_glb.
  apply emits_bind; [| intros _; apply emits_bind; [| intros _; apply emits_bind;
    [| intros _; apply emits_bind; [| intros _]]]].
  - apply emits_bind; [| intros _; apply emits_call; exact I].
    apply emits_print. right; left; reflexivity.
  - apply emits_bind; [apply count_objects_emits | intros m].
    apply emits_bind; [apply count_objects_emits | intros a].
    apply emits_print. right; right; left. exists m, a. reflexivity.
  - apply emits_bind; [apply emits_call; exact I | intros _].
    apply emits_print. do 3 right; left; reflexivity.
  - apply emits_call; exact I.
  - apply emits_print. do 4 right; left; reflexivity.
Qed.

Lemma try_emits (f : string) :
  emits (@is_bpy _ _) (notice f) (catch (convert f) (@on_error H f)).
Proof.
  apply emits_catch.
  - apply emits_bind.
    + apply reset_emits.
    + intros _. apply import_and_export_emits.
  - intros e. apply emits_print. do 5 right. exists e. reflexivity.
Qed.

Lemma iteration_emits (f : string) :
  emits (fun _ => True) (notice f) (@iteration H f).
Proof.
  apply emits_bind; [apply emits_path_exists; exact I | intros found].
  destruct found; cbn [negb].
  - eapply emits_weaken; [| | apply try_emits]; auto.
  - apply emits_print. left; reflexivity.
Qed.

(** No line the loop prints is the closing banner. *)
Lemma notice_not_banner (f line : string) : notice f line -> line <> banner.
Proof.
  unfold notice, banner.
  intros [E | [E | [(m & a & E) | [E | [E | (e & E)]]]]]; subst line;
    cbn; discriminate.
Qed.

(** The existence test sends nothing to Blender and prints nothing. *)
Lemma iteration_run (f : string) w :
  iteration f w
  = let w0 := note (os_path_exists_call (fbx_path H f)) (host w) w in
    if os_path_exists H (fbx_path H f) (host w)
    then catch (convert f) (on_error f) w0
    else print (not_found_notice f) w0.
Proof.
  unfold iteration. rewrite bind_run. cbn [path_exists].
  destruct (os_path_exists H (fbx_path H f) (host w)); reflexivity.
Qed.

(** The handler sends no request and leaves the host as it is. *)
Lemma try_host (f : string) w :
  host (snd (catch (convert f) (on_error f) w)) = host (snd (convert f w))
  /\ calls (snd (catch (convert f) (on_error f) w)) = calls (snd (convert f w)).
Proof.
  rewrite catch_run. destruct (convert f w) as [[e | []] w1]; cbn [snd].
  - unfold on_error. rewrite print_host, print_calls. split; reflexivity.
  - split; reflexivity.
Qed.

(** Where no print raises, an iteration returns, whatever the requests
    do. *)
Lemma iteration_returns (f : string) w :
  prints_return H -> exists w', iteration f w = (inr tt, w').
Proof.
  intros Hp. rewrite iteration_run. cbv zeta.
  destruct (os_path_exists H (fbx_path H f) (host w)).
  - rewrite catch_run.
    destruct (convert f _) as [[e | []] w1]; [| eexists; reflexivity].
    unfold on_error. rewrite print_returns by apply Hp. eexists; reflexivity.
  - rewrite print_returns by apply Hp. eexists; reflexivity.
Qed.

Lemma loop_step (f : string) (files : list string) w w1 :
  iteration f w = (inr tt, w1) ->
  for_each (f :: files) (@iteration H) w = for_each files (@iteration H) w1.
Proof.
  intros E.
  change (for_each (f :: files) (@iteration H))
    with (bind (iteration f) (fun _ => for_each files (@iteration H))).
  rewrite bind_run, E. reflexivity.
Qed.

(** What an iteration raises leaves the loop. *)
Lemma loop_raises (f : string) (files : list string) w e w1 :
  iteration f w = (inl e, w1) ->
  for_each (f :: files) (@iteration H) w = (inl e, w1).
Proof.
  intros E.
  change (for_each (f :: files) (@iteration H))
    with (bind (iteration f) (fun _ => for_each files (@iteration H))).
  rewrite bind_run, E. reflexivity.
Qed.

Lemma loop_returns (files : list string) w :
  prints_return H ->
  exists w', for_each files (@iteration H) w = (inr tt, w').
Proof.
  intros Hp. revert w. induction files as [| f files IH]; intros w.
  - eexists; reflexivity.
  - destruct (iteration_returns f w Hp) as (w1 & E1).
    destruct (IH w1) as (w' & E'). exists w'.
    rewrite (@loop_step f files w w1 E1). exact E'.
Qed.

Lemma host_say (line : string) w : host (say line w) = host w.
Proof. reflexivity. Qed.

Lemma loop_emits (files : list string) :
  emits (fun _ => True) (fun line => line <> banner)
    (for_each files (@iteration H)).
Proof.
  apply emits_for_each. intros f.
  eapply emits_weaken; [| | apply iteration_emits]; [auto |].
  intros line. apply notice_not_banner.
Qed.

(** The first request of a conversion is the [select_all] of the reset. *)
Lemma convert_starts (g : string) w :
  exists t,
    calls (snd (catch (convert g) (on_error g) w))
    = (calls w ++ bpy (object_select_all "SELECT") :: t)%list.
Proof.
  rewrite (proj2 (try_host g w)).
  set (K := fun _ : unit =>
    bind (call object_delete)
      (fun _ => bind (@clear_orphan_data H) (fun _ => import_and_export g))).
  assert (E : convert g w = bind (call (object_select_all "SELECT")) K w).
  { unfold convert, reset, clear_scene, K.
    rewrite bind_assoc, bind_assoc. reflexivity. }
  assert (HK : emits (fun _ => True) (fun _ => True) (K tt)).
  { intros w0. unfold K. rewrite bind_run, call_run.
    set (w1 := note _ _ w0).
    destruct (fst (bpy_perform H object_delete (host w0))) as [e | []].
    - exists [bpy object_delete], []. cbn. rewrite app_nil_r. auto.
    - assert (Hc : emits (@is_bpy _ _) (notice g)
                (bind (@clear_orphan_data H) (fun _ => import_and_export g))).
      { apply emits_bind; [| intros _; apply import_and_export_emits].
        apply clear_orphan_data_emits. }
      destruct (Hc w1) as (t & l & Et & El & _ & _).
      exists (bpy object_delete :: t), l. rewrite Et, El.
      unfold w1. cbn. rewrite <- app_assoc.
      repeat split; apply Forall_forall; intros; exact I. }
  rewrite E, bind_run, call_run.
  set (w1 := note _ _ w).
  destruct (fst (bpy_perform H (object_select_all "SELECT") (host w))) as [e | []].
  - exists []. reflexivity.
  - destruct (HK w1) as (t & l & Et & _).
    exists t. rewrite Et. unfold w1. cbn. rewrite <- app_assoc. reflexivity.
Qed.

(** *** The export *)

Lemma convert_split (f : string) w :
  convert f w
  = bind (before_export f)
      (fun _ => bind (export_glb f) (fun _ => print (converted_notice f))) w.
Proof.
  unfold convert, before_export, import_and_export.
  rewrite !bind_run. destruct (reset w) as [[e | []] w1]; [reflexivity |].
  rewrite !bind_run. destruct (import_fbx f w1) as [[e | []] w2]; [reflexivity |].
  rewrite !bind_run. destruct (check_what_we_got w2) as [[e | []] w3]; [reflexivity |].
  rewrite !bind_run.
  destruct (select_all_for_export f w3) as [[e | []] w4]; reflexivity.
Qed.

Lemma convert_from_export (f : string) w w1 :
  before_export f w = (inr tt, w1) ->
  convert f w = bind (export_glb f) (fun _ => print (converted_notice f)) w1.
Proof. intros E. rewrite convert_split, bind_run, E. reflexivity. Qed.

Lemma export_run (f : string) w1 :
  bind (export_glb f) (fun _ => print (converted_notice f)) w1
  = let request := export_scene_gltf (glb_path H f) "GLB" true true in
    let w2 := note (bpy request) (snd (bpy_perform H request (host w1))) w1 in
    match fst (bpy_perform H request (host w1)) with
    | inl e => (inl e, w2)
    | inr _ => print (converted_notice f) w2
    end.
Proof.
  rewrite bind_run. unfold export_glb. rewrite call_run. cbv zeta.
  destruct (fst (bpy_perform H _ (host w1))) as [e | []]; reflexivity.
Qed.



(** *** The whole batch *)

Lemma batch_spec (files : list string) w :
  prints_return H ->
  exists w' lines,
    batch files w = (inr tt, w')
    /\ stdout w' = (stdout w ++ opening ++ lines ++ closing)%list
    /\ ~ In banner lines
    /\ count_occ string_dec (opening ++ lines ++ closing) banner = 1.
Proof.
  intros Hp. unfold batch.
  rewrite bind_run, for_each_print by (intros; apply Hp). rewrite bind_run.
  set (w0 := {| host := host w; stdout := stdout w ++ opening;
                calls := calls w |}).
  destruct (loop_returns files w0 Hp) as (w1 & E1).
  destruct (loop_emits files w0) as (t & lines & _ & El & _ & Fl).
  rewrite E1 in *. cbn [snd] in El.
  rewrite for_each_print by (intros; apply Hp).
  assert (Hnot : ~ In banner lines).
  { intros Hin. rewrite Forall_forall in Fl. exact (Fl _ Hin eq_refl). }
  exists {| host := host w1; stdout := stdout w1 ++ closing; calls := calls w1 |},
    lines.
  split; [reflexivity |]. split.
  - cbn. rewrite El. unfold w0. cbn. rewrite <- !app_assoc. reflexivity.
  - split; [exact Hnot |].
    rewrite !count_occ_app.
    rewrite (proj1 (count_occ_not_In string_dec lines banner) Hnot).
    reflexivity.
Qed.

(** The requests of an iteration: the existence test, then requests to
    Blender only. *)
Lemma iteration_calls (f : string) w :
  exists t,
    calls (snd (iteration f w))
    = (calls w ++ os_path_exists_call (fbx_path H f) :: t)%list
    /\ Forall (@is_bpy _ _) t.
Proof.
  rewrite iteration_run. cbv zeta.
  destruct (os_path_exists H (fbx_path H f) (host w)).
  - destruct (try_emits f (note (os_path_exists_call (fbx_path H f)) (host w) w))
      as (t & l & Et & _ & Ft & _).
    exists t. rewrite Et. cbn [calls note]. rewrite <- app_assoc. auto.
  - exists []. rewrite print_calls. split; [reflexivity | constructor].
Qed.

(** Where no print raises, every file of the list is attempted: its
    existence test is among the requests of the loop. *)
Lemma loop_attempts_all (files : list string) :
  prints_return H ->
  forall w g,
  In g files ->
  In (os_path_exists_call (fbx_path H g))
    (calls (snd (for_each files (@iteration H) w))).
Proof.
  intros Hp.
  induction files as [| f files IH]; intros w g Hin; [destruct Hin |].
  destruct (iteration_returns f w Hp) as (w1 & E1).
  rewrite (@loop_step f files w w1 E1).
  destruct Hin as [<- | Hin]; [| apply IH; exact Hin].
  destruct (iteration_calls f w) as (t & Et & _).
  rewrite E1 in Et. cbn [snd] in Et.
  destruct (loop_emits files w1) as (t' & _ & Et' & _).
  rewrite Et', Et. apply in_or_app. left. apply in_or_app. right. left.
  reflexivity.
Qed.

(** A file whose source path does not exist: the iteration is the print
    of the not-found notice. *)
Lemma skip_run (f : string) w :
  os_path_exists H (fbx_path H f) (host w) = false ->
  iteration f w
  = print (not_found_notice f)
      (note (os_path_exists_call (fbx_path H f)) (host w) w).
Proof. intros E. rewrite iteration_run. cbv zeta. rewrite E. reflexivity. Qed.

(** C1, as amended.  If the conversion of item k raises (in the reset,
    the import, a query, the selection or the export), the fault is caught
    by the handler around the whole attempt, which prints the error notice
    with [str(e)] for item k.  When that print returns, the iteration
    returns, the host is in the state the fault left, and the loop goes on
    with items k+1..n from there.  Where no print raises at all, each of
    these items is attempted and neither the loop nor the batch raises. *)
Theorem fault_containment (before after : list string) (f : string) w w1 e w2 :
  for_each before (@iteration H) w = (inr tt, w1) ->
  os_path_exists H (fbx_path H f) (host w1) = true ->
  convert f (note (os_path_exists_call (fbx_path H f)) (host w1) w1) = (inl e, w2) ->
  print_raises H (error_notice f e) (host w2) = None ->
  let line := "❌ Error converting " ++ f ++ ": " ++ str e ++ String "010" "" in
  iteration f w1 = (inr tt, say line w2)
  /\ stdout (snd (iteration f w1)) = (stdout w2 ++ [line])%list
  /\ host (snd (iteration f w1)) = host w2
  /\ for_each (before ++ f :: after) (@iteration H) w
     = for_each after (@iteration H) (say line w2)
  /\ (prints_return H ->
      (exists w',
         for_each (before ++ f :: after) (@iteration H) w = (inr tt, w')
         /\ forall g, In g after ->
              In (os_path_exists_call (fbx_path H g)) (calls w'))
      /\ (forall files w0, exists w', batch files w0 = (inr tt, w'))).
Proof.
  intros Hbefore Hexists Hfault Hprint line.
  assert (El : line = error_notice f e) by reflexivity.
  clearbody line. subst line.
  assert (E : iteration f w1 = (inr tt, say (error_notice f e) w2)).
  { rewrite iteration_run. cbv zeta. rewrite Hexists.
    rewrite catch_run, Hfault. apply print_returns. exact Hprint. }
  assert (E' : for_each (before ++ f :: after) (@iteration H) w
               = for_each after (@iteration H) (say (error_notice f e) w2)).
  { rewrite for_each_app, Hbefore. apply loop_step. exact E. }
  split; [exact E |]. rewrite E. do 2 (split; [reflexivity |]).
  split; [exact E' |]. intros Hp. split.
  - destruct (loop_returns after (say (error_notice f e) w2) Hp) as (w' & Ew').
    exists w'. split; [rewrite E'; exact Ew' |].
    intros g Hg.
    pose proof (@loop_attempts_all after Hp (say (error_notice f e) w2) g Hg) as Hin.
    rewrite Ew' in Hin. exact Hin.
  - intros files w0. destruct (batch_spec files w0 Hp) as (w' & _ & Ew' & _).
    exists w'. exact Ew'.
Qed.

(** C10. The handler does no cleanup: after a fault it prints the error
    notice and nothing else, so the host stays in the state the fault left
    and no request is sent, whether the print returns or raises.  That
    state is what the rest of the loop starts from: it survives the
    closing lines and every skipped file, and the first request sent after
    the fault, if there is one, is the [select_all] of the next
    conversion's reset. *)
Theorem handler_no_cleanup (f : string) (rest : list string) w e w2 :
  os_path_exists H (fbx_path H f) (host w) = true ->
  convert f (note (os_path_exists_call (fbx_path H f)) (host w) w) = (inl e, w2) ->
  let w3 := say (error_notice f e) w2 in
  iteration f w = print (error_notice f e) w2
  /\ host (snd (iteration f w)) = host w2
  /\ calls (snd (iteration f w)) = calls w2
  /\ (print_raises H (error_notice f e) (host w2) = None ->
      iteration f w = (inr tt, w3)
      /\ for_each (f :: rest) (@iteration H) w = for_each rest (@iteration H) w3)
  /\ (forall e', print_raises H (error_notice f e) (host w2) = Some e' ->
      iteration f w = (inl e', w2)
      /\ for_each (f :: rest) (@iteration H) w = (inl e', w2))
  /\ host w3 = host w2
  /\ calls w3 = calls w2
  /\ stdout w3 = (stdout w2 ++ [error_notice f e])%list
  /\ host (snd (for_each (closing) (@print H) w3)) = host w2
  /\ (forall g, os_path_exists H (fbx_path H g) (host w3) = false ->
      host (snd (iteration g w3)) = host w2)
  /\ (forall g, os_path_exists H (fbx_path H g) (host w3) = true ->
      exists t,
        calls (snd (iteration g w3))
        = (calls w2 ++ os_path_exists_call (fbx_path H g)
             :: bpy (object_select_all "SELECT") :: t)%list).
Proof.
  intros Hexists Hfault w3.
  assert (E : iteration f w = print (error_notice f e) w2).
  { rewrite iteration_run. cbv zeta. rewrite Hexists.
    rewrite catch_run, Hfault. reflexivity. }
  split; [exact E |].
  split; [rewrite E; apply print_host |].
  split; [rewrite E; apply print_calls |].
  split.
  { intros Hp.
    assert (E' : iteration f w = (inr tt, w3))
      by (rewrite E; apply print_returns; exact Hp).
    split; [exact E' | apply loop_step; exact E']. }
  split.
  { intros e' Hp.
    assert (E' : iteration f w = (inl e', w2))
      by (rewrite E; apply print_raised; exact Hp).
    split; [exact E' | apply loop_raises; exact E']. }
  do 3 (split; [reflexivity |]).
  split; [exact (proj1 (for_each_print_host closing w3)) |].
  split.
  - intros g Hg. rewrite (@skip_run g w3 Hg), print_host. reflexivity.
  - intros g Hg. rewrite iteration_run. cbv zeta. rewrite Hg.
    destruct (convert_starts g
                (note (os_path_exists_call (fbx_path H g)) (host w3) w3))
      as (t & Et).
    exists t. rewrite Et. cbn. rewrite <- app_assoc. reflexivity.
Qed.

(** Where no print raises, the script itself returns and prints the
    banner once. *)
Corollary main_completes w :
  prints_return H ->
  exists w' lines,
    main w = (inr tt, w')
    /\ stdout w' = (stdout w ++ opening ++ lines ++ closing)%list
    /\ count_occ string_dec (opening ++ lines ++ closing) banner = 1.
Proof.
  intros Hp.
  destruct (batch_spec fbx_files w Hp) as (w' & lines & E & Hout & _ & Hone).
  exists w', lines. auto.
Qed.

End Control.

(** ** The scene, for a host that keeps the contract *)

Section Scene.

Variable H : Host.
Variable V : View H.
Hypothesis L : Blender V.
Implicit Types w : World H.

Lemma filter_none A (p : A -> bool) (l : list A) :
  (forall x, In x l -> p x = false) -> filter p l = [].
Proof.
  induction l as [| x l IH]; intros Hp; [reflexivity |].
  cbn. rewrite (Hp x (or_introl eq_refl)). apply IH.
  intros y Hy. apply Hp. right; exact Hy.
Qed.

Lemma kind_eq_dec (k k' : Kind) : {k = k'} + {k <> k'}.
Proof. decide equality. Qed.

(** One loop over the blocks [todo] of the collection [k]. *)
Lemma purge_loop (k : Kind) (todo : list (Block H)) : forall w,
  NoDup todo ->
  (forall b, In b todo -> In b (blocks V k (host w))) ->
  exists w',
    for_each todo (purge_step k) w = (inr tt, w')
    /\ stdout w' = stdout w
    /\ objects V (host w') = objects V (host w)
    /\ (forall b, In b (blocks V k (host w')) <->
                  In b (blocks V k (host w))
                  /\ ~ (In b todo /\ users V (host w) b = 0))
    /\ (forall k', k' <> k -> blocks V k' (host w') = blocks V k' (host w))
    /\ (forall k' b, rank k' <= rank k -> In b (blocks V k' (host w')) ->
                     users V (host w') b = users V (host w) b)
    /\ (forall p, fbx_types V p (host w') = fbx_types V p (host w))
    /\ ((forall b, In b todo -> users V (host w) b <> 0) -> host w' = host w)
    /\ (plain V (host w) -> plain V (host w')).
Proof.
  induction todo as [| b todo IH]; intros w Hnd Hin.
  - exists w. repeat split; auto; tauto.
  - inversion Hnd as [| ? ? Hb Hnd']; subst.
    assert (Hbin : In b (blocks V k (host w))) by (apply Hin; left; reflexivity).
    change (for_each (b :: todo) (purge_step k))
      with (bind (purge_step k b) (fun _ => for_each todo (purge_step k))).
    rewrite bind_run. unfold purge_step at 1.
    rewrite bind_run, call_run, (users_spec L k b _ Hbin). cbn [fst snd].
    set (wa := note (bpy (block_users b)) (host w) w).
    destruct (Nat.eqb_spec (users V (host w) b) 0) as [Hzero | Hused].
    + destruct (remove_spec L k b _ Hbin Hzero)
        as (s1 & Erm & Hobj & Hblk & Hoth & Husr & Hfbx & Hpl1).
      rewrite call_run. cbn [host wa note]. rewrite Erm. cbn [fst snd].
      set (wb := note (bpy (data_remove k b)) s1 wa).
      destruct (IH wb Hnd')
        as (w' & Erun & Hout & Ho & Hb' & Hk' & Hu' & Hf' & _ & Hpl').
      { intros x Hx. cbn. apply Hblk. split; [apply Hin; right; exact Hx |].
        intros ->. exact (Hb Hx). }
      cbn [host wb note] in *.
      exists w'. split; [exact Erun |]. split; [exact Hout |].
      split; [congruence |]. split; [| split; [| split; [| split; [| split]]]].
      * intros x. rewrite Hb', Hblk. split.
        -- intros [[Hx Hne] Hn]. split; [exact Hx |].
           intros [[-> | Hr] Hz]; [exact (Hne eq_refl) |].
           apply Hn. split; [exact Hr |].
           rewrite (Husr k x (le_n _)); [exact Hz |].
           apply Hblk. split; assumption.
        -- intros [Hx Hn].
           assert (Hne : x <> b).
           { intros ->. apply Hn. split; [left; reflexivity | exact Hzero]. }
           split; [split; assumption |].
           intros [Hr Hz]. apply Hn. split; [right; exact Hr |].
           rewrite <- (Husr k x (le_n _)); [exact Hz |].
           apply Hblk. split; assumption.
      * intros k' Hk. rewrite (Hk' k' Hk). apply Hoth. exact Hk.
      * intros k' x Hle Hx. rewrite (Hu' k' x Hle Hx). apply (Husr k' x Hle).
        destruct (kind_eq_dec k' k) as [-> | Hk].
        -- apply Hb' in Hx. tauto.
        -- rewrite <- (Hk' k' Hk). exact Hx.
      * intros p. rewrite Hf'. apply Hfbx.
      * intros Hall. exfalso. apply (Hall b); [left; reflexivity | exact Hzero].
      * intros Hp. apply Hpl', Hpl1, Hp.
    + cbn [ret Monad_M].
      destruct (IH wa Hnd')
        as (w' & Erun & Hout & Ho & Hb' & Hk' & Hu' & Hf' & Hsame & Hpl').
      { intros x Hx. cbn. apply Hin. right; exact Hx. }
      cbn [host wa note] in *.
      exists w'. split; [exact Erun |]. split; [exact Hout |].
      split; [exact Ho |]. split; [| split; [| split; [| split; [| split]]]]; auto.
      * intros x. rewrite Hb'. split.
        -- intros [Hx Hn]. split; [exact Hx |].
           intros [[-> | Hr] Hz]; [exact (Hused Hz) |].
           apply Hn. split; assumption.
        -- intros [Hx Hn]. split; [exact Hx |].
           intros [Hr Hz]. apply Hn. split; [right; exact Hr | exact Hz].
      * intros Hall. apply Hsame. intros x Hx. apply Hall. right; exact Hx.
Qed.

Lemma purge_spec (k : Kind) w :
  exists w',
    purge k w = (inr tt, w')
    /\ stdout w' = stdout w
    /\ objects V (host w') = objects V (host w)
    /\ (forall b, In b (blocks V k (host w')) <->
                  In b (blocks V k (host w)) /\ users V (host w) b <> 0)
    /\ (forall k', k' <> k -> blocks V k' (host w') = blocks V k' (host w))
    /\ (forall k' b, rank k' <= rank k -> In b (blocks V k' (host w')) ->
                     users V (host w') b = users V (host w) b)
    /\ (forall p, fbx_types V p (host w') = fbx_types V p (host w))
    /\ ((forall b, In b (blocks V k (host w)) -> users V (host w) b <> 0) ->
        host w' = host w)
    /\ (plain V (host w) -> plain V (host w')).
Proof.
  unfold purge. rewrite bind_run, call_run, (iter_spec L). cbn [fst snd].
  set (wa := note (bpy (data_iter k)) (host w) w).
  destruct (@purge_loop k (blocks V k (host w)) wa (blocks_nodup L k (host w)))
    as (w' & Erun & Hout & Ho & Hb & Hk & Hu & Hf & Hsame & Hpl); [auto |].
  cbn [host wa note] in *.
  exists w'. split; [exact Erun |]. split; [exact Hout |].
  split; [exact Ho |]. split; [| repeat (split; [assumption |]); assumption].
  intros b. rewrite Hb. split.
  - intros [Hin Hn]. split; [exact Hin |]. intros Hz. apply Hn. auto.
  - intros [Hin Hn]. split; [exact Hin |]. intros [_ Hz]. exact (Hn Hz).
Qed.

Lemma clear_scene_spec w :
  plain V (host w) ->
  exists w',
    clear_scene w = (inr tt, w')
    /\ stdout w' = stdout w
    /\ calls w' = (calls w ++ [bpy (object_select_all "SELECT"); bpy object_delete])%list
    /\ objects V (host w') = []
    /\ (forall k, blocks V k (host w') = blocks V k (host w))
    /\ (forall p, fbx_types V p (host w') = fbx_types V p (host w))
    /\ (objects V (host w) = [] ->
        forall b, users V (host w') b = users V (host w) b)
    /\ plain V (host w').
Proof.
  intros Hplain.
  destruct (select_all_spec L (host w) Hplain)
    as (s1 & E1 & Hlen & Hsel & Hb1 & Hu1 & Hf1 & Hp1).
  destruct (delete_spec L s1 Hp1) as (s2 & E2 & Hobj & Hb2 & Hu2 & Hf2 & Hp2).
  unfold clear_scene. rewrite bind_run, call_run, E1. cbn [fst snd].
  rewrite call_run. cbn [host note]. rewrite E2. cbn [fst snd].
  eexists. split; [reflexivity |]. cbn [host stdout calls note].
  split; [reflexivity |]. split; [rewrite <- app_assoc; reflexivity |].
  split; [| split; [| split; [| split]]].
  - rewrite Hobj. apply filter_none. intros o Ho. rewrite (Hsel o Ho). reflexivity.
  - intros k. rewrite Hb2. apply Hb1.
  - intros p. rewrite Hf2. apply Hf1.
  - intros Hempty b. rewrite <- Hu1. apply Hu2.
    rewrite Hempty in Hlen. destruct (objects V s1); [| discriminate Hlen].
    intros o [].
  - exact Hp2.
Qed.

Lemma clear_orphan_data_spec w :
  exists w',
    clear_orphan_data w = (inr tt, w')
    /\ stdout w' = stdout w
    /\ objects V (host w') = objects V (host w)
    /\ (forall k b, In b (blocks V k (host w')) ->
                    In b (blocks V k (host w)) /\ users V (host w') b <> 0)
    /\ (forall p, fbx_types V p (host w') = fbx_types V p (host w))
    /\ ((forall k b, In b (blocks V k (host w)) -> users V (host w) b <> 0) ->
        host w' = host w)
    /\ (plain V (host w) -> plain V (host w')).
Proof.
  destruct (purge_spec meshes w)
    as (w3 & E3 & Hout3 & Ho3 & Hb3 & Hk3 & Hu3 & Hf3 & Hs3 & Hp3).
  destruct (purge_spec armatures w3)
    as (w4 & E4 & Hout4 & Ho4 & Hb4 & Hk4 & Hu4 & Hf4 & Hs4 & Hp4).
  destruct (purge_spec actions w4)
    as (w5 & E5 & Hout5 & Ho5 & Hb5 & Hk5 & Hu5 & Hf5 & Hs5 & Hp5).
  exists w5. split.
  { unfold clear_orphan_data. rewrite bind_run, E3, bind_run, E4. exact E5. }
  split; [congruence |]. split; [congruence |].
  split; [| split; [| split]].
  - intros k b Hin. destruct k.
    + assert (H4 : In b (blocks V meshes (host w4))).
      { rewrite <- (Hk5 meshes) by discriminate. exact Hin. }
      assert (H3 : In b (blocks V meshes (host w3))).
      { rewrite <- (Hk4 meshes) by discriminate. exact H4. }
      apply Hb3 in H3 as Hsrc. destruct Hsrc as [Hsrc Hn]. split; [exact Hsrc |].
      rewrite (Hu5 meshes b) by (cbn; lia || exact Hin).
      rewrite (Hu4 meshes b) by (cbn; lia || exact H4).
      rewrite (Hu3 meshes b) by (cbn; lia || exact H3).
      exact Hn.
    + assert (H4 : In b (blocks V armatures (host w4))).
      { rewrite <- (Hk5 armatures) by discriminate. exact Hin. }
      apply Hb4 in H4 as Hsrc. destruct Hsrc as [H3 Hn].
      split; [rewrite <- (Hk3 armatures) by discriminate; exact H3 |].
      rewrite (Hu5 armatures b) by (cbn; lia || exact Hin).
      rewrite (Hu4 armatures b) by (cbn; lia || exact H4).
      exact Hn.
    + apply Hb5 in Hin as Hsrc. destruct Hsrc as [H4 Hn]. split.
      * rewrite <- (Hk3 actions) by discriminate.
        rewrite <- (Hk4 actions) by discriminate. exact H4.
      * rewrite (Hu5 actions b) by (cbn; lia || exact Hin). exact Hn.
  - intros p. rewrite Hf5, Hf4. apply Hf3.
  - intros Hall.
    assert (S3 : host w3 = host w) by (apply Hs3; apply Hall).
    assert (S4 : host w4 = host w3) by (apply Hs4; rewrite S3; apply Hall).
    assert (S5 : host w5 = host w4) by (apply Hs5; rewrite S4, S3; apply Hall).
    congruence.
  - intros Hp. apply Hp5, Hp4, Hp3, Hp.
Qed.

Lemma reset_run w wc :
  clear_scene w = (inr tt, wc) -> reset w = clear_orphan_data wc.
Proof. intros E. unfold reset. rewrite bind_run, E. reflexivity. Qed.

(** What the reset does, from every plain state. *)
Lemma reset_spec w :
  plain V (host w) ->
  exists w',
    reset w = (inr tt, w')
    /\ stdout w' = stdout w
    /\ (exists t,
         calls w'
         = (calls w ++ bpy (object_select_all "SELECT") :: bpy object_delete :: t)%list)
    /\ objects V (host w') = []
    /\ (forall k b, In b (blocks V k (host w')) -> users V (host w') b <> 0)
    /\ (forall k b, In b (blocks V k (host w')) -> In b (blocks V k (host w)))
    /\ (forall p, fbx_types V p (host w') = fbx_types V p (host w))
    /\ plain V (host w').
Proof.
  intros Hplain.
  destruct (clear_scene_spec w Hplain)
    as (wc & Ec & Houtc & Hcalls & Hobj & Hblk & Hfc & _ & Hpc).
  destruct (clear_orphan_data_spec wc) as (w' & Eo & Hout & Ho & Hb & Hf & _ & Hpo).
  exists w'. split; [rewrite (@reset_run _ _ Ec); exact Eo |].
  split; [congruence |]. split.
  - destruct (clear_orphan_data_emits (fun _ => True) wc) as (t & _ & Et & _).
    rewrite Eo in Et. cbn [snd] in Et. exists t.
    rewrite Et, Hcalls, <- app_assoc. reflexivity.
  - split; [congruence |]. split; [| split; [| split]].
    + intros k b Hin. apply (Hb k b Hin).
    + intros k b Hin. rewrite <- Hblk. apply (Hb k b Hin).
    + intros p. rewrite Hf. apply Hfc.
    + apply Hpo, Hpc.
Qed.

(** C6, as amended.  From every plain state of the scene (object mode,
    every object within reach of the operators) of a host that keeps the
    contract, the reset returns; it first asks for all objects to be
    selected and for the selection to be deleted, and no object is left;
    then it purges, and no mesh, armature or action that is left has zero
    users.  It adds no block, and the state it leaves is plain again. *)
Theorem reset_purges_orphans w :
  plain V (host w) ->
  exists w',
    reset w = (inr tt, w')
    /\ (exists t,
         calls w'
         = (calls w ++ bpy (object_select_all "SELECT") :: bpy object_delete :: t)%list)
    /\ objects V (host w') = []
    /\ (forall k b, In b (blocks V k (host w')) -> users V (host w') b <> 0)
    /\ (forall k b, In b (blocks V k (host w')) -> In b (blocks V k (host w)))
    /\ plain V (host w').
Proof.
  intros Hplain.
  destruct (reset_spec w Hplain)
    as (w' & E & _ & Hcalls & Hobj & Hused & Hsub & _ & Hp).
  exists w'. repeat (split; [assumption |]). exact Hp.
Qed.

(** C7, as amended.  From every plain state of a host that keeps the
    contract the reset is idempotent: a second reset right after the first
    returns as well and leaves what the first left, no object, the same
    blocks with the same user counts, none of them unused.  The blocks
    that still have users are kept by both. *)
Theorem reset_idempotent w :
  plain V (host w) ->
  exists w1 w2,
    reset w = (inr tt, w1)
    /\ reset w1 = (inr tt, w2)
    /\ objects V (host w1) = []
    /\ objects V (host w2) = []
    /\ (forall k, blocks V k (host w2) = blocks V k (host w1))
    /\ (forall b, users V (host w2) b = users V (host w1) b)
    /\ (forall k b, In b (blocks V k (host w2)) -> users V (host w2) b <> 0).
Proof.
  intros Hplain.
  destruct (reset_spec w Hplain) as (w1 & E1 & _ & _ & Hobj1 & Hused1 & _ & _ & Hp1).
  destruct (clear_scene_spec w1 Hp1)
    as (wc & Ec & _ & _ & Hobjc & Hblkc & _ & Husrc & _).
  specialize (Husrc Hobj1).
  destruct (clear_orphan_data_spec wc) as (w2 & Eo & _ & Ho & Hb & _ & Hsame & _).
  assert (S : host w2 = host wc).
  { apply Hsame. intros k b Hin. rewrite Husrc. apply (Hused1 k).
    rewrite <- Hblkc. exact Hin. }
  exists w1, w2. split; [exact E1 |].
  split; [rewrite (@reset_run _ _ Ec); exact Eo |].
  split; [exact Hobj1 |]. split; [congruence |].
  split; [intros k; rewrite S; apply Hblkc |].
  split; [intros b; rewrite S; apply Husrc |].
  intros k b Hin. apply (Hb k b Hin).
Qed.

(** *** Counting the objects *)

Lemma count_type_map A (f : A -> string) (type : string) (l : list A) :
  List.length (filter (fun x => String.eqb (f x) type) l) = count_type type (map f l).
Proof.
  unfold count_type. induction l as [| x l IH]; [reflexivity |].
  cbn. destruct (String.eqb (f x) type); cbn; rewrite IH; reflexivity.
Qed.

Lemma comprehension_types (type : string) (xs : list (Obj H)) : forall w,
  (forall o, In o xs -> In o (objects V (host w))) ->
  exists w',
    comprehension xs (fun obj => t <- call (object_type obj) ;; ret (String.eqb t type)) w
    = (inr (filter (fun o => String.eqb (type_of V (host w) o) type) xs), w')
    /\ host w' = host w /\ stdout w' = stdout w.
Proof.
  induction xs as [| x xs IH]; intros w Hin.
  - exists w. auto.
  - cbn [comprehension]. rewrite bind_run, bind_run, call_run.
    rewrite (type_spec L x (host w)) by (apply Hin; left; reflexivity).
    cbn [fst snd].
    set (wa := note (bpy (object_type x)) (host w) w).
    destruct (IH wa) as (w' & E & Hh & Ho).
    { intros o Ho. apply Hin. right; exact Ho. }
    rewrite ret_run, bind_run, E, ret_run. cbn [host wa note] in *.
    exists w'. split; [| auto]. cbn [filter].
    destruct (String.eqb (type_of V (host w) x) type); reflexivity.
Qed.

Lemma count_objects_spec (type : string) w :
  exists w',
    count_objects type w
    = (inr (count_type type (map (type_of V (host w)) (objects V (host w)))), w')
    /\ host w' = host w /\ stdout w' = stdout w.
Proof.
  unfold count_objects. rewrite bind_run, call_run, (objects_spec L).
  cbn [fst snd].
  set (wa := note (bpy data_objects) (host w) w).
  destruct (@comprehension_types type (objects V (host w)) wa) as (w' & E & Hh & Ho);
    [auto |].
  rewrite bind_run, E, ret_run. cbn [host wa note] in *.
  exists w'. split; [| auto].
  rewrite count_type_map. reflexivity.
Qed.

Lemma check_what_we_got_spec w :
  exists wb,
    check_what_we_got w
    = print
        (found_notice
           (count_type "MESH" (map (type_of V (host w)) (objects V (host w))))
           (count_type "ARMATURE" (map (type_of V (host w)) (objects V (host w)))))
        wb
    /\ host wb = host w
    /\ stdout wb = stdout w.
Proof.
  destruct (count_objects_spec "MESH" w) as (wa & Ea & Hha & Hoa).
  destruct (count_objects_spec "ARMATURE" wa) as (wb & Eb & Hhb & Hob).
  rewrite Hha in Eb.
  unfold check_what_we_got. rewrite bind_run, Ea, bind_run, Eb.
  exists wb. split; [reflexivity |]. split; congruence.
Qed.

Lemma after_check_emits (f : string) :
  emits (fun _ => True) (fun _ => True)
    (bind (select_all_for_export f)
       (fun _ => bind (export_glb f) (fun _ => @print H (converted_notice f)))).
Proof.
  unfold select_all_for_export, export_glb.
  repeat first
    [ apply emits_bind; [| intros ? ]
    | apply emits_call; exact I
    | apply emits_print; exact I ].
Qed.

(** C3, as amended.  Whatever ran before (nothing, or job A and the jobs
    before it), when job B starts in a plain state of a host that keeps
    the contract and its source exists, the reset runs first and returns;
    the import of B is sent from the scene the reset left, which holds no
    object and no unused block; and when that import returns and no print
    raises, the counts printed for B are the numbers of mesh and armature
    objects of B's FBX file, as it is when job B starts. *)
Theorem isolation_between_jobs (before : list string) (B : string) w0 w :
  prints_return H ->
  for_each before (@iteration H) w0 = (inr tt, w) ->
  plain V (host w) ->
  os_path_exists H (fbx_path H B) (host w) = true ->
  exists w1,
    reset (note (os_path_exists_call (fbx_path H B)) (host w) w) = (inr tt, w1)
    /\ objects V (host w1) = []
    /\ (forall k b, In b (blocks V k (host w1)) -> users V (host w1) b <> 0)
    /\ iteration B w = catch (import_and_export B) (on_error B) w1
    /\ (forall s2,
          bpy_perform H (import_scene_fbx (fbx_path H B)) (host w1) = (inr tt, s2) ->
          exists lines,
            stdout (snd (iteration B w))
            = (stdout w ++ ("📥 Importing: " ++ B ++ "...")%string
                 :: ("   Found: "
                     ++ Py.str_of_nat
                          (count_type "MESH" (fbx_types V (fbx_path H B) (host w)))
                     ++ " meshes, "
                     ++ Py.str_of_nat
                          (count_type "ARMATURE"
                             (fbx_types V (fbx_path H B) (host w)))
                     ++ " armatures")%string
                 :: lines)%list).
Proof.
  intros Hp _ Hplain Hexists.
  set (wq := note (os_path_exists_call (fbx_path H B)) (host w) w).
  destruct (@reset_spec wq Hplain)
    as (w1 & E & Hout & _ & Hobj & Hused & _ & Hfbx & _).
  exists w1. split; [exact E |]. split; [exact Hobj |]. split; [exact Hused |].
  assert (Eiter : iteration B w = catch (import_and_export B) (on_error B) w1).
  { rewrite iteration_run. cbv zeta. rewrite Hexists, !catch_run.
    unfold convert. fold wq. rewrite bind_run, E. reflexivity. }
  split; [exact Eiter |].
  intros s2 Eimp.
  change ("📥 Importing: " ++ B ++ "...") with (importing_notice B).
  change ("   Found: "
          ++ Py.str_of_nat (count_type "MESH" (fbx_types V (fbx_path H B) (host w)))
          ++ " meshes, "
          ++ Py.str_of_nat
               (count_type "ARMATURE" (fbx_types V (fbx_path H B) (host w)))
          ++ " armatures")
    with (found_notice
            (count_type "MESH" (fbx_types V (fbx_path H B) (host w)))
            (count_type "ARMATURE" (fbx_types V (fbx_path H B) (host w)))).
  rewrite Eiter, catch_run.
  unfold import_and_export. rewrite bind_run.
  unfold import_fbx at 1. rewrite bind_run, print_returns by apply Hp.
  rewrite call_run. cbn [host say]. rewrite Eimp. cbn [fst snd].
  set (w2 := note (bpy (import_scene_fbx (fbx_path H B))) s2
               (say (importing_notice B) w1)).
  destruct (import_spec L _ _ Eimp) as (new & Hnew & Htypes & _).
  destruct (check_what_we_got_spec w2) as (w3 & Ec & Hh3 & Ho3).
  cbn [host stdout w2 note say] in Ec, Ho3.
  rewrite Hnew, Hobj in Ec. cbn [app] in Ec.
  rewrite Htypes, Hfbx in Ec. cbn [host wq note] in Ec.
  rewrite bind_run, Ec, print_returns by apply Hp.
  set (line := found_notice _ _).
  destruct (after_check_emits B (say line w3)) as (t & l & _ & El & _).
  match goal with
  | |- context [match ?m (say line w3) with _ => _ end] =>
      change m with (bind (select_all_for_export B)
        (fun _ => bind (export_glb B) (fun _ => @print H (converted_notice B))))
  end.
  assert (Hsofar : stdout (say line w3)
                   = (stdout w ++ [importing_notice B; line])%list).
  { cbn [stdout say]. rewrite Ho3, Hout. cbn [stdout wq note].
    rewrite <- app_assoc. reflexivity. }
  destruct (bind (select_all_for_export B) _ (say line w3)) as [[e | []] w4];
    cbn [snd] in El.
  - exists (l ++ [error_notice B e])%list. unfold on_error.
    rewrite print_returns by apply Hp. cbn [snd say stdout].
    rewrite El, Hsofar, <- !app_assoc. reflexivity.
  - exists l. cbn [snd]. rewrite El, Hsofar, <- !app_assoc. reflexivity.
Qed.

(** C9. For a file whose source exists, the one existence test of the
    iteration is that of the source path, and every line printed is one of
    the six notices; once the steps before the export have returned, the
    export to the destination path is sent, whatever is at that path; and
    when it returns the GLB at the destination path is the one just
    written, and the file is converted, the converted notice being its
    last line when the print of it returns. *)
Theorem export_without_check (f : string) w :
  os_path_exists H (fbx_path H f) (host w) = true ->
  (exists t l,
      calls (snd (iteration f w))
      = (calls w ++ os_path_exists_call (fbx_path H f) :: t)%list
      /\ Forall (@is_bpy _ _) t
      /\ stdout (snd (iteration f w)) = (stdout w ++ l)%list
      /\ Forall (notice f) l)
  /\ (forall w1,
        before_export f (note (os_path_exists_call (fbx_path H f)) (host w) w)
        = (inr tt, w1) ->
        let request := export_scene_gltf (glb_path H f) "GLB" true true in
        calls (snd (iteration f w)) = (calls w1 ++ [bpy request])%list
        /\ (forall s', bpy_perform H request (host w1) = (inr tt, s') ->
              host (snd (iteration f w)) = s'
              /\ glb_at V (glb_path H f) (host (snd (iteration f w)))
                 = Some (glb_of V (host w1))
              /\ (print_raises H (converted_notice f) s' = None ->
                  iteration f w
                  = (inr tt, say (converted_notice f) (note (bpy request) s' w1))))).
Proof.
  intros Hexists.
  assert (Eiter : iteration f w
                  = catch (convert f) (on_error f)
                      (note (os_path_exists_call (fbx_path H f)) (host w) w)).
  { rewrite iteration_run. cbv zeta. rewrite Hexists. reflexivity. }
  split.
  - destruct (try_emits f (note (os_path_exists_call (fbx_path H f)) (host w) w))
      as (t & l & Et & El & Ft & Fl).
    exists t, l. rewrite Eiter, Et, El. cbn [calls stdout note].
    rewrite <- app_assoc. auto.
  - intros w1 E request.
    set (w0 := note (os_path_exists_call (fbx_path H f)) (host w) w) in *.
    destruct (try_host f w0) as [Hh Hc].
    assert (Erun : convert f w0
                   = match fst (bpy_perform H request (host w1)) with
                     | inl e =>
                         (inl e, note (bpy request)
                                   (snd (bpy_perform H request (host w1))) w1)
                     | inr _ =>
                         print (converted_notice f)
                           (note (bpy request)
                              (snd (bpy_perform H request (host w1))) w1)
                     end).
    { rewrite (@convert_from_export H f w0 w1 E), export_run. reflexivity. }
    split.
    + rewrite Eiter, Hc, Erun.
      destruct (fst (bpy_perform H request (host w1))) as [e | []];
        [| rewrite print_calls]; reflexivity.
    + intros s' Es.
      assert (Hhost : host (snd (iteration f w)) = s').
      { rewrite Eiter, Hh, Erun, Es. cbn [fst snd]. rewrite print_host.
        reflexivity. }
      split; [exact Hhost |]. split.
      * rewrite Hhost. apply (export_spec L _ _ Es).
      * intros Hprint. rewrite Eiter, catch_run, Erun, Es. cbn [fst snd].
        rewrite print_returns by exact Hprint. reflexivity.
Qed.

End Scene.

(** ** The reference host keeps the contract *)

Lemma ref_datablock_eqb_spec (a b : Ref.datablock) :
  Ref.datablock_eqb a b = true <-> a = b.
Proof.
  destruct a as [ka na fa], b as [kb nb fb]. unfold Ref.datablock_eqb. cbn.
  rewrite !andb_true_iff, Nat.eqb_eq, Bool.eqb_true_iff. split.
  - intros [[Hk ->] ->]. f_equal.
    unfold Ref.kind_eqb in Hk. apply Nat.eqb_eq in Hk.
    destruct ka, kb; cbn in Hk; congruence.
  - intros E. injection E as -> -> ->.
    unfold Ref.kind_eqb. rewrite Nat.eqb_refl. auto.
Qed.

Lemma ref_kind_eqb_spec (a b : Kind) : Ref.kind_eqb a b = true <-> a = b.
Proof.
  unfold Ref.kind_eqb. rewrite Nat.eqb_eq.
  destruct a, b; cbn; split; congruence.
Qed.

Lemma ref_dedup_In (x : Ref.datablock) (l : list Ref.datablock) :
  In x (Ref.dedup l) <-> In x l.
Proof.
  induction l as [| b l IH]; [reflexivity |].
  cbn. rewrite filter_In, IH. split.
  - intros [E | [Hin _]]; auto.
  - intros [E | Hin]; [left; exact E |].
    destruct (Ref.datablock_eqb x b) eqn:Eq.
    + left. symmetry. apply ref_datablock_eqb_spec. exact Eq.
    + right. auto.
Qed.

Lemma ref_dedup_NoDup (l : list Ref.datablock) : NoDup (Ref.dedup l).
Proof.
  induction l as [| b l IH]; cbn; constructor.
  - rewrite filter_In. intros [_ Hneq].
    rewrite (proj2 (ref_datablock_eqb_spec b b) eq_refl) in Hneq.
    discriminate Hneq.
  - apply NoDup_filter. exact IH.
Qed.

Lemma ref_collection_In (k : Kind) (s : Ref.scene) (b : Ref.datablock) :
  In b (Ref.collection k s) <-> In b (Ref.sc_data s) /\ Ref.bl_kind b = k.
Proof.
  unfold Ref.collection. rewrite ref_dedup_In, filter_In, ref_kind_eqb_spec.
  reflexivity.
Qed.

Lemma ref_existsb_In (b : Ref.datablock) (l : list Ref.datablock) :
  In b l -> existsb (Ref.datablock_eqb b) l = true.
Proof.
  intros Hin. apply existsb_exists. exists b. split; [exact Hin |].
  apply ref_datablock_eqb_spec. reflexivity.
Qed.

Lemma ref_filter_all A (p : A -> bool) (l : list A) :
  (forall x, In x l -> p x = true) -> filter p l = l.
Proof.
  induction l as [| x l IH]; intros Hp; [reflexivity |].
  cbn. rewrite (Hp x (or_introl eq_refl)). f_equal. apply IH.
  intros y Hy. apply Hp. right; exact Hy.
Qed.

Lemma ref_filter_filter A (p q : A -> bool) (l : list A) :
  (forall x, In x l -> p x = true -> q x = true) ->
  filter p (filter q l) = filter p l.
Proof.
  induction l as [| x l IH]; intros Hpq; [reflexivity |].
  cbn. destruct (q x) eqn:Eq; cbn.
  - destruct (p x); [f_equal |]; apply IH; intros y Hy; apply Hpq; right; exact Hy.
  - destruct (p x) eqn:Ep.
    + rewrite (Hpq x (or_introl eq_refl) Ep) in Eq. discriminate Eq.
    + apply IH. intros y Hy. apply Hpq. right; exact Hy.
Qed.

Lemma ref_unused_unlink (x : nat * nat) (o : Ref.object) :
  Ref.refs x o = 0 -> Ref.unlink x o = o.
Proof.
  destruct o as [n t sel hide uses]. unfold Ref.refs, Ref.unlink. cbn. intros Hz.
  f_equal. apply ref_filter_all. intros y Hy.
  destruct (Ref.key_eqb x y) eqn:E; [| reflexivity].
  assert (Hin : In y (filter (Ref.key_eqb x) uses)) by (apply filter_In; auto).
  destruct (filter (Ref.key_eqb x) uses); [destruct Hin | discriminate Hz].
Qed.

Lemma ref_unused_objects (b : Ref.datablock) (s : Ref.scene) :
  Ref.count_users s b = 0 ->
  map (Ref.unlink (Ref.key b)) (Ref.sc_objects s) = Ref.sc_objects s.
Proof.
  unfold Ref.count_users. intros Hz.
  assert (Hs : list_sum (map (Ref.refs (Ref.key b)) (Ref.sc_objects s)) = 0) by lia.
  clear Hz. induction (Ref.sc_objects s) as [| o os IH]; [reflexivity |].
  change (Ref.refs (Ref.key b) o + list_sum (map (Ref.refs (Ref.key b)) os) = 0)
    in Hs.
  cbn [map]. rewrite ref_unused_unlink by lia. f_equal. apply IH. lia.
Qed.

Lemma ref_users_select (v : bool) (b : Ref.datablock) (os : list Ref.object) :
  map (Ref.refs (Ref.key b)) (map (Ref.set_select v) os)
  = map (Ref.refs (Ref.key b)) os.
Proof. rewrite map_map. apply map_ext. intros o. reflexivity. Qed.

Lemma ref_spawn_all_types (types : list string) : forall n,
  map Ref.ob_type (fst (Ref.spawn_all n types)) = types.
Proof.
  induction types as [| t ts IH]; intros n; [reflexivity |].
  cbn [Ref.spawn_all]. specialize (IH (S n)).
  destruct (Ref.spawn_all (S n) ts) as [os bss].
  destruct (Ref.spawn n t) as [o bs] eqn:Es. cbn in *. rewrite IH. f_equal.
  unfold Ref.spawn in Es.
  destruct (String.eqb t "MESH"); [injection Es as <- _; reflexivity |].
  destruct (String.eqb t "ARMATURE"); injection Es as <- _; reflexivity.
Qed.


Lemma ref_spawn_all_visible (types : list string) : forall n,
  forallb (fun o => negb (Ref.ob_hide o)) (fst (Ref.spawn_all n types)) = true.
Proof.
  induction types as [| t ts IH]; intros n; [reflexivity |].
  cbn [Ref.spawn_all]. specialize (IH (S n)).
  destruct (Ref.spawn_all (S n) ts) as [os bss].
  destruct (Ref.spawn n t) as [o bs] eqn:Es. cbn in *. rewrite IH.
  unfold Ref.spawn in Es.
  destruct (String.eqb t "MESH"); [injection Es as <- _; reflexivity |].
  destruct (String.eqb t "ARMATURE"); injection Es as <- _; reflexivity.
Qed.

Lemma ref_visible (s : Ref.scene) (o : Ref.object) :
  forallb (fun o => negb (Ref.ob_hide o)) (Ref.sc_objects s) = true ->
  In o (Ref.sc_objects s) -> Ref.ob_hide o = false.
Proof.
  intros Hv Ho. rewrite forallb_forall in Hv.
  apply negb_true_iff. exact (Hv o Ho).
Qed.

Lemma ref_laws : Blender Ref.view.
Proof.
  constructor.
  - reflexivity.
  - intros k s. apply ref_dedup_NoDup.
  - intros k b s Hin. apply ref_collection_In in Hin as [Hin _].
    cbn. rewrite (ref_existsb_In _ _ Hin). reflexivity.
  - reflexivity.
  - reflexivity.
  - intros s [Hmode Hvis]. eexists. split.
    { cbn. rewrite Hmode. reflexivity. }
    cbn. split; [apply length_map |]. split; [| split; [| split; [| split]]].
    + intros o Ho. apply in_map_iff in Ho as (o' & <- & Ho').
      unfold Ref.chosen, Ref.set_select. cbn.
      rewrite (ref_visible s o' Hvis Ho'). reflexivity.
    + reflexivity.
    + intros b. unfold Ref.count_users. cbn. rewrite ref_users_select. reflexivity.
    + reflexivity.
    + split; [reflexivity |]. cbn. apply forallb_forall.
      intros o Ho. apply in_map_iff in Ho as (o' & <- & Ho'). cbn.
      rewrite (ref_visible s o' Hvis Ho'). reflexivity.
  - intros s [Hmode Hvis]. eexists. split.
    { cbn. rewrite Hmode. reflexivity. }
    cbn. split; [reflexivity |]. split; [reflexivity |].
    split; [| split; [reflexivity |]].
    + intros Hnone b. unfold Ref.count_users. cbn.
      rewrite ref_filter_all; [reflexivity |].
      intros o Ho. rewrite (Hnone o Ho). reflexivity.
    + split; [reflexivity |]. cbn. apply forallb_forall.
      intros o Ho. apply filter_In in Ho as [Ho _].
      rewrite (ref_visible s o Hvis Ho). reflexivity.
  - intros k b s Hin Hz. cbn in Hin, Hz.
    apply ref_collection_In in Hin as Hb. destruct Hb as [Hdata Hkind].
    eexists. split.
    { cbn. rewrite (proj2 (ref_kind_eqb_spec _ _) Hkind).
      rewrite (ref_existsb_In _ _ Hdata). cbn. reflexivity. }
    cbn. unfold Ref.plain_scene. cbn. rewrite (ref_unused_objects _ _ Hz).
    split; [reflexivity |]. split; [| split; [| split; [| split]]].
    + intros b'. rewrite ref_collection_In, ref_dedup_In, !filter_In.
      rewrite negb_true_iff, ref_kind_eqb_spec.
      split.
      * intros [[Hd Hne] Hk]. repeat split; auto.
        intros ->. rewrite (proj2 (ref_datablock_eqb_spec b b) eq_refl) in Hne.
        discriminate Hne.
      * intros [[Hd Hk] Hne]. repeat split; auto.
        destruct (Ref.datablock_eqb b' b) eqn:E; [| reflexivity].
        apply ref_datablock_eqb_spec in E. contradiction.
    + intros k' Hk'. unfold Ref.collection. cbn. f_equal.
      apply ref_filter_filter. intros x _ Hx.
      apply ref_kind_eqb_spec in Hx. apply negb_true_iff.
      destruct (Ref.datablock_eqb x b) eqn:E; [| reflexivity].
      apply ref_datablock_eqb_spec in E. congruence.
    + intros k' b' _ _. reflexivity.
    + reflexivity.
    + intros Hp. exact Hp.
  - intros p s s' E. cbn in *. unfold Ref.nodes_at.
    destruct (Ref.lookup p (Ref.sc_files s)) as [[nodes | | exported |] |];
      try discriminate E.
    pose proof (ref_spawn_all_types nodes (Ref.sc_next s)) as Ht.
    pose proof (ref_spawn_all_visible nodes (Ref.sc_next s)) as Hv.
    destruct (Ref.spawn_all (Ref.sc_next s) nodes) as [os bs].
    injection E as <-. exists os. cbn in *.
    split; [reflexivity |]. split; [exact Ht |].
    intros [Hm Hs]. split; [exact Hm |]. cbn.
    rewrite forallb_app, Hs, Hv. reflexivity.
  - intros p s s' E. cbn in *. unfold Ref.exported_at.
    destruct (Ref.lookup p (Ref.sc_files s)) as [[nodes | | exported |] |];
      try discriminate E; injection E as <-; cbn; rewrite String.eqb_refl;
      reflexivity.
Qed.

(** The standard output of the reference host takes every line. *)
Lemma ref_prints_return : prints_return Ref.platform.
Proof. intros line s. reflexivity. Qed.

Lemma demo_start_plain : plain Ref.view (host Demo.start).
Proof. split; reflexivity. Qed.

(** ** The theorems at the reference host *)

Example demo_batch_lines :
  stdout (snd (batch ["great sword idle.fbx"; "great sword attack.fbx";
                      "great sword run.fbx"; "great sword slash.fbx"]
                 Demo.start))
  = (opening
     ++ [ importing_notice "great sword idle.fbx"; found_notice 0 1;
          exporting_notice "great sword idle.fbx";
          converted_notice "great sword idle.fbx";
          not_found_notice "great sword attack.fbx";
          importing_notice "great sword run.fbx";
          error_notice "great sword run.fbx" (mkException "not an FBX file");
          importing_notice "great sword slash.fbx"; found_notice 1 0;
          exporting_notice "great sword slash.fbx";
          error_notice "great sword slash.fbx" (mkException "Permission denied") ]
     ++ closing)%list.
Proof. vm_compute. reflexivity. Qed.

(** C2. The [print] of the not-found notice (line 38) is outside the
    [try].  On a standard output that has no code for the mark of the
    notice it raises: for the missing ["great sword attack.fbx"] the one
    interaction is the existence test and Blender gets no request, but no
    notice is printed, the iteration raises, and the loop is left before
    the next file is tested. *)
Theorem skip_notice_aborts :
  os_path_exists Ref.legacy (fbx_path Ref.legacy "great sword attack.fbx")
    (host Demo.legacy_start) = false
  /\ print_raises Ref.legacy ("❌ Not found: " ++ "great sword attack.fbx")
       (host Demo.legacy_start)
     = Some Ref.unencodable
  /\ iteration "great sword attack.fbx" Demo.legacy_start
     = (inl Ref.unencodable,
        @Build_World Ref.legacy Demo.startup []
          [os_path_exists_call (fbx_path Ref.legacy "great sword attack.fbx")])
  /\ for_each ["great sword attack.fbx"; "great sword idle.fbx"]
       (@iteration Ref.legacy) Demo.legacy_start
     = (inl Ref.unencodable,
        @Build_World Ref.legacy Demo.startup []
          [os_path_exists_call (fbx_path Ref.legacy "great sword attack.fbx")]).
Proof. vm_compute. repeat split; reflexivity. Qed.

(** C5. On a standard output that has no code for the marks of the
    notices the script does not reach its closing lines: the first file of
    [fbx_files] is missing from the disk, the print of its not-found
    notice raises, and the script ends with this exception after the three
    opening lines and one existence test, the banner unprinted. *)
Theorem main_aborts_before_banner :
  main Demo.legacy_start
  = (inl Ref.unencodable,
     @Build_World Ref.legacy Demo.startup opening
       [os_path_exists_call (fbx_path Ref.legacy "Maria WProp J J Ong.fbx")])
  /\ count_occ string_dec (stdout (snd (main Demo.legacy_start)))
       "Conversion Complete!" = 0
  /\ List.length fbx_files = 13.
Proof. vm_compute. repeat split; reflexivity. Qed.

(** With no file the batch prints its opening and closing lines only. *)
Example empty_batch_run :
  batch [] Demo.start
  = (inr tt, @Build_World Ref.platform Demo.startup (opening ++ closing) []).
Proof. vm_compute. reflexivity. Qed.

Lemma fault_containment_witness :
  for_each ["great sword idle.fbx"] (@iteration Ref.platform) Demo.start
  = (inr tt, Demo.after_idle)
  /\ os_path_exists Ref.platform
       (fbx_path Ref.platform "great sword run.fbx") (host Demo.after_idle) = true
  /\ convert "great sword run.fbx"
       (note (os_path_exists_call (fbx_path Ref.platform "great sword run.fbx"))
          (host Demo.after_idle) Demo.after_idle)
     = (inl (mkException "not an FBX file"),
        Demo.attempt "great sword run.fbx" Demo.after_idle)
  /\ print_raises Ref.platform
       (error_notice "great sword run.fbx" (mkException "not an FBX file"))
       (host (Demo.attempt "great sword run.fbx" Demo.after_idle))
     = None
  /\ (let w2 := Demo.attempt "great sword run.fbx" Demo.after_idle in
      let line := "❌ Error converting great sword run.fbx: not an FBX file"
                  ++ String "010" "" in
      iteration "great sword run.fbx" Demo.after_idle = (inr tt, say line w2)
      /\ stdout (snd (iteration "great sword run.fbx" Demo.after_idle))
         = (stdout w2 ++ [line])%list
      /\ host (snd (iteration "great sword run.fbx" Demo.after_idle)) = host w2
      /\ for_each (["great sword idle.fbx"]
                   ++ "great sword run.fbx" :: ["great sword walk.fbx"])
           (@iteration Ref.platform) Demo.start
         = for_each ["great sword walk.fbx"] (@iteration Ref.platform)
             (say line w2)
      /\ (prints_return Ref.platform ->
          (exists w',
             for_each (["great sword idle.fbx"]
                       ++ "great sword run.fbx" :: ["great sword walk.fbx"])
               (@iteration Ref.platform) Demo.start
             = (inr tt, w')
             /\ forall g, In g ["great sword walk.fbx"] ->
                  In (os_path_exists_call (fbx_path Ref.platform g)) (calls w'))
          /\ (forall files (w0 : World Ref.platform),
                exists w', batch files w0 = (inr tt, w')))).
Proof.
  assert (H1 : for_each ["great sword idle.fbx"] (@iteration Ref.platform)
                 Demo.start = (inr tt, Demo.after_idle))
    by (vm_compute; reflexivity).
  assert (H2 : os_path_exists Ref.platform
                 (fbx_path Ref.platform "great sword run.fbx")
                 (host Demo.after_idle) = true)
    by (vm_compute; reflexivity).
  assert (H3 : convert "great sword run.fbx"
                 (note (os_path_exists_call
                          (fbx_path Ref.platform "great sword run.fbx"))
                    (host Demo.after_idle) Demo.after_idle)
               = (inl (mkException "not an FBX file"),
                  Demo.attempt "great sword run.fbx" Demo.after_idle))
    by (vm_compute; reflexivity).
  assert (H4 : print_raises Ref.platform
                 (error_notice "great sword run.fbx"
                    (mkException "not an FBX file"))
                 (host (Demo.attempt "great sword run.fbx" Demo.after_idle))
               = None)
    by reflexivity.
  split; [exact H1 |]. split; [exact H2 |]. split; [exact H3 |].
  split; [exact H4 |].
  exact (@fault_containment Ref.platform ["great sword idle.fbx"]
           ["great sword walk.fbx"] "great sword run.fbx" Demo.start
           Demo.after_idle (mkException "not an FBX file")
           (Demo.attempt "great sword run.fbx" Demo.after_idle) H1 H2 H3 H4).
Defined.

(** C1 as stated fails twice over.  The outcome of an item depends on the
    state a fault before it has left: ["great sword idle.fbx"] converts
    when it comes first, and fails when it comes after
    ["great sword jump.fbx"], whose import gives up in edit mode, where
    the reset of the next item raises.  And an exception does leave the
    loop: on a standard output that has no code for the mark of the error
    notice, the reset of the first item raises in edit mode, the handler
    catches this, its print raises, and the second item is not
    attempted. *)
Lemma fault_spreads :
  stdout (snd (for_each ["great sword idle.fbx"] (@iteration Ref.platform)
                 Demo.start))
  = [ importing_notice "great sword idle.fbx"; found_notice 0 1;
      exporting_notice "great sword idle.fbx";
      converted_notice "great sword idle.fbx" ]
  /\ stdout (snd (for_each ["great sword jump.fbx"; "great sword idle.fbx"]
                    (@iteration Ref.platform) Demo.start))
     = [ importing_notice "great sword jump.fbx";
         error_notice "great sword jump.fbx"
           (mkException "armature could not be built");
         error_notice "great sword idle.fbx"
           (Ref.poll_failed "object.select_all") ]
  /\ fst (for_each ["great sword idle.fbx"; "great sword walk.fbx"]
            (@iteration Ref.legacy) Demo.legacy_edit_start)
     = inl Ref.unencodable
  /\ calls (snd (for_each ["great sword idle.fbx"; "great sword walk.fbx"]
                   (@iteration Ref.legacy) Demo.legacy_edit_start))
     = [ os_path_exists_call (fbx_path Ref.legacy "great sword idle.fbx");
         bpy (object_select_all "SELECT") ].
Proof. vm_compute. repeat split; reflexivity. Qed.

Lemma handler_no_cleanup_witness :
  os_path_exists Ref.platform
    (fbx_path Ref.platform "great sword slash.fbx") (host Demo.start) = true
  /\ convert "great sword slash.fbx"
       (note (os_path_exists_call (fbx_path Ref.platform "great sword slash.fbx"))
          (host Demo.start) Demo.start)
     = (inl (mkException "Permission denied"),
        Demo.attempt "great sword slash.fbx" Demo.start)
  /\ (let f := "great sword slash.fbx" in
      let rest := ["great sword idle.fbx"] in
      let w := Demo.start in
      let e := mkException "Permission denied" in
      let w2 := Demo.attempt "great sword slash.fbx" Demo.start in
      let w3 := say (error_notice f e) w2 in
      iteration f w = print (error_notice f e) w2
      /\ host (snd (iteration f w)) = host w2
      /\ calls (snd (iteration f w)) = calls w2
      /\ (print_raises Ref.platform (error_notice f e) (host w2) = None ->
          iteration f w = (inr tt, w3)
          /\ for_each (f :: rest) (@iteration Ref.platform) w
             = for_each rest (@iteration Ref.platform) w3)
      /\ (forall e',
            print_raises Ref.platform (error_notice f e) (host w2) = Some e' ->
            iteration f w = (inl e', w2)
            /\ for_each (f :: rest) (@iteration Ref.platform) w = (inl e', w2))
      /\ host w3 = host w2
      /\ calls w3 = calls w2
      /\ stdout w3 = (stdout w2 ++ [error_notice f e])%list
      /\ host (snd (for_each closing (@print Ref.platform) w3)) = host w2
      /\ (forall g,
            os_path_exists Ref.platform (fbx_path Ref.platform g) (host w3) = false ->
            host (snd (iteration g w3)) = host w2)
      /\ (forall g,
            os_path_exists Ref.platform (fbx_path Ref.platform g) (host w3) = true ->
            exists t,
              calls (snd (iteration g w3))
              = (calls w2 ++ os_path_exists_call (fbx_path Ref.platform g)
                   :: bpy (object_select_all "SELECT") :: t)%list)).
Proof.
  assert (H1 : os_path_exists Ref.platform
                 (fbx_path Ref.platform "great sword slash.fbx")
                 (host Demo.start) = true)
    by (vm_compute; reflexivity).
  assert (H2 : convert "great sword slash.fbx"
                 (note (os_path_exists_call
                          (fbx_path Ref.platform "great sword slash.fbx"))
                    (host Demo.start) Demo.start)
               = (inl (mkException "Permission denied"),
                  Demo.attempt "great sword slash.fbx" Demo.start))
    by (vm_compute; reflexivity).
  split; [exact H1 |]. split; [exact H2 |].
  exact (@handler_no_cleanup Ref.platform "great sword slash.fbx"
           ["great sword idle.fbx"] Demo.start
           (mkException "Permission denied")
           (Demo.attempt "great sword slash.fbx" Demo.start) H1 H2).
Defined.

(** The state a fault in the export leaves: the imported mesh is still in
    the scene. *)
Example residual_state :
  map Ref.ob_type
    (objects Ref.view (host (Demo.attempt "great sword slash.fbx" Demo.start)))
  = ["MESH"].
Proof. vm_compute. reflexivity. Qed.

(** The handler on a standard output that has no code for the mark of the
    error notice: what its print raises leaves the loop, and the host is
    still in the state the fault left. *)
Example handler_print_raises :
  iteration "great sword idle.fbx" Demo.legacy_edit_start
  = (inl Ref.unencodable,
     @Build_World Ref.legacy Demo.edit_startup []
       [ os_path_exists_call (fbx_path Ref.legacy "great sword idle.fbx");
         bpy (object_select_all "SELECT") ]).
Proof. vm_compute. reflexivity. Qed.

Lemma naming_contract_witness :
  In "great sword attack.fbx" fbx_files
  /\ ("great sword attack.fbx" = stem "great sword attack.fbx" ++ ".fbx"
      /\ glb_name "great sword attack.fbx" = stem "great sword attack.fbx" ++ ".glb"
      /\ Py.contains ".fbx" (stem "great sword attack.fbx") = false).
Proof.
  assert (Hin : In "great sword attack.fbx" fbx_files)
    by (do 4 right; left; reflexivity).
  split; [exact Hin |].
  exact (@naming_contract "great sword attack.fbx" Hin).
Defined.

Example naming_example :
  glb_name "great sword attack.fbx" = "great sword attack.glb".
Proof. reflexivity. Qed.

Lemma reset_purges_orphans_witness :
  Blender Ref.view
  /\ plain Ref.view (host Demo.start)
  /\ exists w',
       reset Demo.start = (inr tt, w')
       /\ (exists t,
             calls w'
             = (calls Demo.start ++ bpy (object_select_all "SELECT")
                  :: bpy object_delete :: t)%list)
       /\ objects Ref.view (host w') = []
       /\ (forall k b, In b (blocks Ref.view k (host w')) ->
                       users Ref.view (host w') b <> 0)
       /\ (forall k b, In b (blocks Ref.view k (host w')) ->
                       In b (blocks Ref.view k (host Demo.start)))
       /\ plain Ref.view (host w').
Proof.
  split; [exact ref_laws |]. split; [exact demo_start_plain |].
  exact (@reset_purges_orphans Ref.platform Ref.view ref_laws Demo.start
           demo_start_plain).
Defined.

(** C6 as stated fails: the reset does not select, hence does not delete,
    an object that is hidden, and the mesh of that object stays with it;
    and from a scene left in edit mode the reset raises at its first
    request. *)
Lemma reset_misses_hidden_objects :
  fst (reset Demo.hidden_start) = inr tt
  /\ objects Ref.view (host (snd (reset Demo.hidden_start))) = [Demo.hidden_cube]
  /\ blocks Ref.view meshes (host (snd (reset Demo.hidden_start)))
     = [Demo.cube_mesh]
  /\ reset Demo.edit_start
     = (inl (Ref.poll_failed "object.select_all"),
        @Build_World Ref.platform Demo.edit_startup []
          [bpy (object_select_all "SELECT")]).
Proof. vm_compute. repeat split; reflexivity. Qed.

Lemma reset_idempotent_witness :
  Blender Ref.view
  /\ plain Ref.view (host Demo.start)
  /\ exists w1 w2,
       reset Demo.start = (inr tt, w1)
       /\ reset w1 = (inr tt, w2)
       /\ objects Ref.view (host w1) = []
       /\ objects Ref.view (host w2) = []
       /\ (forall k, blocks Ref.view k (host w2) = blocks Ref.view k (host w1))
       /\ (forall b, users Ref.view (host w2) b = users Ref.view (host w1) b)
       /\ (forall k b, In b (blocks Ref.view k (host w2)) ->
                       users Ref.view (host w2) b <> 0).
Proof.
  split; [exact ref_laws |]. split; [exact demo_start_plain |].
  exact (@reset_idempotent Ref.platform Ref.view ref_laws Demo.start
           demo_start_plain).
Defined.

(** C7 as stated fails: the reset of the startup scene, once or twice,
    leaves the action that a fake user keeps, so not every data-block count
    is zero afterwards. *)
Lemma reset_keeps_used_blocks :
  ~ (exists w1 w2,
       reset Demo.start = (inr tt, w1)
       /\ reset w1 = (inr tt, w2)
       /\ host w2 = host w1
       /\ List.length (objects Ref.view (host w2)) = 0
       /\ (forall k, List.length (blocks Ref.view k (host w2)) = 0)).
Proof.
  intros (w1 & w2 & E1 & E2 & _ & _ & Hzero).
  vm_compute in E1. injection E1 as <-.
  vm_compute in E2. injection E2 as <-.
  specialize (Hzero actions). vm_compute in Hzero. discriminate Hzero.
Qed.

Example reset_keeps_used_blocks_run :
  blocks Ref.view actions (host (snd (reset Demo.start))) = [Demo.old_action]
  /\ users Ref.view (host (snd (reset Demo.start))) Demo.old_action = 1
  /\ blocks Ref.view meshes (host (snd (reset Demo.start))) = []
  /\ objects Ref.view (host (snd (reset Demo.start))) = [].
Proof. vm_compute. repeat split; reflexivity. Qed.

(** A second reset of the startup scene changes nothing. *)
Example reset_twice_run :
  host (snd (reset (snd (reset Demo.start)))) = host (snd (reset Demo.start)).
Proof. vm_compute. reflexivity. Qed.

(** A second reset in edit mode raises as the first does. *)
Example reset_twice_in_edit_mode :
  fst (reset (snd (reset Demo.edit_start)))
  = inl (Ref.poll_failed "object.select_all").
Proof. vm_compute. reflexivity. Qed.

Lemma demo_after_idle_plain : plain Ref.view (host Demo.after_idle).
Proof. vm_compute. split; reflexivity. Qed.

Lemma isolation_between_jobs_witness :
  Blender Ref.view
  /\ prints_return Ref.platform
  /\ for_each ["great sword idle.fbx"] (@iteration Ref.platform) Demo.start
     = (inr tt, Demo.after_idle)
  /\ plain Ref.view (host Demo.after_idle)
  /\ os_path_exists Ref.platform
       (fbx_path Ref.platform "great sword walk.fbx") (host Demo.after_idle) = true
  /\ exists w1,
       reset (note (os_path_exists_call
                      (fbx_path Ref.platform "great sword walk.fbx"))
                (host Demo.after_idle) Demo.after_idle)
       = (inr tt, w1)
       /\ objects Ref.view (host w1) = []
       /\ (forall k b, In b (blocks Ref.view k (host w1)) ->
                       users Ref.view (host w1) b <> 0)
       /\ iteration "great sword walk.fbx" Demo.after_idle
          = catch (import_and_export "great sword walk.fbx")
              (on_error "great sword walk.fbx") w1
       /\ (forall s2,
             bpy_perform Ref.platform
               (import_scene_fbx (fbx_path Ref.platform "great sword walk.fbx"))
               (host w1)
             = (inr tt, s2) ->
             exists lines,
               stdout (snd (iteration "great sword walk.fbx" Demo.after_idle))
               = (stdout Demo.after_idle
                  ++ importing_notice "great sword walk.fbx"
                  :: found_notice
                       (count_type "MESH"
                          (fbx_types Ref.view
                             (fbx_path Ref.platform "great sword walk.fbx")
                             (host Demo.after_idle)))
                       (count_type "ARMATURE"
                          (fbx_types Ref.view
                             (fbx_path Ref.platform "great sword walk.fbx")
                             (host Demo.after_idle)))
                  :: lines)%list).
Proof.
  assert (H1 : for_each ["great sword idle.fbx"] (@iteration Ref.platform)
                 Demo.start = (inr tt, Demo.after_idle))
    by (vm_compute; reflexivity).
  assert (H2 : os_path_exists Ref.platform
                 (fbx_path Ref.platform "great sword walk.fbx")
                 (host Demo.after_idle) = true)
    by (vm_compute; reflexivity).
  split; [exact ref_laws |]. split; [exact ref_prints_return |].
  split; [exact H1 |]. split; [exact demo_after_idle_plain |].
  split; [exact H2 |].
  exact (@isolation_between_jobs Ref.platform Ref.view ref_laws
           ["great sword idle.fbx"] "great sword walk.fbx"
           Demo.start Demo.after_idle ref_prints_return H1
           demo_after_idle_plain H2).
Defined.

(** C3 as stated fails.  The reset does not return the scene to an empty
    state: after ["great sword idle.fbx"] the action of its armature, which
    a fake user keeps, is still there when the reset of the next job has
    run.  And the counts of a job are not always those of its file: a
    hidden cube survives the reset and is counted, so the first job, whose
    file holds one armature and no mesh, reports one mesh and one
    armature. *)
Lemma reset_state_not_empty :
  blocks Ref.view actions (host (snd (reset Demo.after_idle)))
  = [ Demo.old_action;
      {| Ref.bl_kind := actions; Ref.bl_name := 2; Ref.use_fake_user := true |} ]
  /\ fbx_types Ref.view (fbx_path Ref.platform "great sword idle.fbx")
       (host Demo.hidden_start)
     = ["ARMATURE"]
  /\ stdout (snd (iteration "great sword idle.fbx" Demo.hidden_start))
     = [ importing_notice "great sword idle.fbx"; found_notice 1 1;
         exporting_notice "great sword idle.fbx";
         converted_notice "great sword idle.fbx" ].
Proof. vm_compute. repeat split; reflexivity. Qed.

(** The counts printed for the second of two jobs are those of its file:
    one mesh and one armature, not the armature of the first job as well. *)
Example isolation_run :
  stdout (snd (for_each ["great sword idle.fbx"; "great sword walk.fbx"]
                 (@iteration Ref.platform) Demo.start))
  = [ importing_notice "great sword idle.fbx"; found_notice 0 1;
      exporting_notice "great sword idle.fbx";
      converted_notice "great sword idle.fbx";
      importing_notice "great sword walk.fbx"; found_notice 1 1;
      exporting_notice "great sword walk.fbx";
      converted_notice "great sword walk.fbx" ].
Proof. vm_compute. reflexivity. Qed.

(** Without the reset the counts of the second job would include the
    armature the first job left. *)
Example without_reset_counts_leak :
  stdout (snd (import_and_export "great sword walk.fbx"
                 (Ref.world (host Demo.after_idle))))
  = [ importing_notice "great sword walk.fbx"; found_notice 1 2;
      exporting_notice "great sword walk.fbx";
      converted_notice "great sword walk.fbx" ].
Proof. vm_compute. reflexivity. Qed.


(** The export request of ["great sword idle.fbx"]. *)
Example export_request_run :
  last (calls (snd (convert "great sword idle.fbx" Demo.start)))
    (bpy object_delete)
  = bpy (export_scene_gltf
           "C:\Users\coder\Documents\Github\Sacred-Heart\client\public\GreatSwordPack\great sword idle.glb"
           "GLB" true true).
Proof. vm_compute. reflexivity. Qed.


Lemma export_without_check_witness :
  Blender Ref.view
  /\ os_path_exists Ref.platform
       (fbx_path Ref.platform "great sword idle.fbx") (host Demo.start) = true
  /\ ((exists t l,
         calls (snd (iteration "great sword idle.fbx" Demo.start))
         = (calls Demo.start
            ++ os_path_exists_call (fbx_path Ref.platform "great sword idle.fbx")
            :: t)%list
         /\ Forall (@is_bpy _ _) t
         /\ stdout (snd (iteration "great sword idle.fbx" Demo.start))
            = (stdout Demo.start ++ l)%list
         /\ Forall (notice "great sword idle.fbx") l)
      /\ (forall w1,
            before_export "great sword idle.fbx"
              (note (os_path_exists_call
                       (fbx_path Ref.platform "great sword idle.fbx"))
                 (host Demo.start) Demo.start)
            = (inr tt, w1) ->
            let request :=
              export_scene_gltf (glb_path Ref.platform "great sword idle.fbx")
                "GLB" true true in
            calls (snd (iteration "great sword idle.fbx" Demo.start))
            = (calls w1 ++ [bpy request])%list
            /\ (forall s',
                  bpy_perform Ref.platform request (host w1) = (inr tt, s') ->
                  host (snd (iteration "great sword idle.fbx" Demo.start)) = s'
                  /\ glb_at Ref.view (glb_path Ref.platform "great sword idle.fbx")
                       (host (snd (iteration "great sword idle.fbx" Demo.start)))
                     = Some (glb_of Ref.view (host w1))
                  /\ (print_raises Ref.platform
                        (converted_notice "great sword idle.fbx") s' = None ->
                      iteration "great sword idle.fbx" Demo.start
                      = (inr tt, say (converted_notice "great sword idle.fbx")
                                   (note (bpy request) s' w1)))))).
Proof.
  assert (H1 : os_path_exists Ref.platform
                 (fbx_path Ref.platform "great sword idle.fbx")
                 (host Demo.start) = true)
    by (vm_compute; reflexivity).
  split; [exact ref_laws |]. split; [exact H1 |].
  exact (@export_without_check Ref.platform Ref.view ref_laws
           "great sword idle.fbx" Demo.start H1).
Defined.

(** The GLB that was at the destination of ["great sword idle.fbx"] is
    replaced by the export. *)
Example overwrite_run :
  glb_at Ref.view (glb_path Ref.platform "great sword idle.fbx") (host Demo.start)
  = Some [Demo.cube]
  /\ option_map (map Ref.ob_type)
       (glb_at Ref.view (glb_path Ref.platform "great sword idle.fbx")
          (host (snd (iteration "great sword idle.fbx" Demo.start))))
     = Some ["ARMATURE"].
Proof. vm_compute. split; reflexivity. Qed.

(** * Further properties of the script *)

(** ** The destination name *)

Lemma length_app (a b : string) :
  String.length (a ++ b) = String.length a + String.length b.
Proof.
  induction a as [| c a IH]; cbn; [reflexivity | rewrite IH; reflexivity].
Qed.

Lemma prefix_length (p s : string) :
  String.prefix p s = true -> String.length p <= String.length s.
Proof.
  revert s. induction p as [| a p IH]; intros s Hp; [cbn; lia |].
  destruct s as [| b s]; [discriminate Hp |].
  cbn -[ascii_dec] in Hp. destruct (ascii_dec a b); [| discriminate Hp].
  cbn. apply IH in Hp. lia.
Qed.

Lemma prefix_nil (s : string) : String.prefix "" s = true.
Proof. destruct s; reflexivity. Qed.

Lemma prefix_cons (a c : ascii) (p s : string) :
  String.prefix (String a p) (String c s)
  = if ascii_dec a c then String.prefix p s else false.
Proof. reflexivity. Qed.

(** [s.replace(old, new)] is [s] where [old] does not occur. *)
Lemma replace_absent (old new s : string) :
  Py.contains old s = false -> Py.replace old new s = s.
Proof.
  unfold Py.replace. induction s as [| c s IH]; intros Hc.
  - destruct old; [discriminate Hc | reflexivity].
  - cbn [Py.contains] in Hc. apply orb_false_elim in Hc as [Hp Hc].
    cbn [Py.replace_from]. rewrite Hp, (IH Hc). reflexivity.
Qed.

(** A replacement by a string of the same length keeps the length. *)
Lemma replace_from_length (old new : string) :
  String.length old = String.length new ->
  forall s n,
    String.length (Py.replace_from old new n s) = String.length s - n.
Proof.
  intros Hlen. induction s as [| c s IH]; intros n.
  - cbn. destruct (String.eqb_spec old ""); [| reflexivity].
    subst old. destruct new; [reflexivity | discriminate Hlen].
  - destruct n as [| n]; cbn [Py.replace_from].
    + destruct (String.prefix old (String c s)) eqn:Hp.
      * apply prefix_length in Hp. cbn [String.length] in Hp.
        rewrite length_app.
        destruct (String.eqb_spec old "").
        -- subst old. destruct new; [| discriminate Hlen].
           cbn. rewrite IH. lia.
        -- rewrite IH. destruct old; [congruence |].
           cbn [String.length] in *. lia.
      * cbn. rewrite IH. lia.
    + rewrite IH. cbn. lia.
Qed.

(** One step of the replacement of [".fbx"] by [".glb"]. *)
Lemma replace_fbx_step (c : ascii) (s : string) :
  (String.prefix ".fbx" (String c s) = true
   /\ c = "."%char
   /\ Py.replace ".fbx" ".glb" (String c s)
      = ".glb" ++ Py.replace_from ".fbx" ".glb" 3 s)
  \/ (String.prefix ".fbx" (String c s) = false
      /\ Py.replace ".fbx" ".glb" (String c s)
         = String c (Py.replace ".fbx" ".glb" s)).
Proof.
  unfold Py.replace. cbn [Py.replace_from].
  destruct (String.prefix ".fbx" (String c s)) eqn:Hp; [left | right; auto].
  split; [reflexivity |]. split; [| reflexivity].
  cbn -[ascii_dec] in Hp. destruct (ascii_dec "." c); [auto | discriminate Hp].
Qed.

Lemma replace_keeps_x (s : string) :
  String.prefix "x" (Py.replace ".fbx" ".glb" s) = String.prefix "x" s.
Proof.
  destruct s as [| c s]; [reflexivity |].
  destruct (replace_fbx_step c s) as [(_ & -> & ->) | (_ & ->)]; [reflexivity |].
  rewrite !prefix_cons, !prefix_nil. reflexivity.
Qed.

Lemma replace_keeps_bx (s : string) :
  String.prefix "bx" (Py.replace ".fbx" ".glb" s) = String.prefix "bx" s.
Proof.
  destruct s as [| c s]; [reflexivity |].
  destruct (replace_fbx_step c s) as [(_ & -> & ->) | (_ & ->)]; [reflexivity |].
  rewrite !prefix_cons, replace_keeps_x. reflexivity.
Qed.

Lemma replace_keeps_fbx (s : string) :
  String.prefix "fbx" (Py.replace ".fbx" ".glb" s) = String.prefix "fbx" s.
Proof.
  destruct s as [| c s]; [reflexivity |].
  destruct (replace_fbx_step c s) as [(_ & -> & ->) | (_ & ->)]; [reflexivity |].
  rewrite !prefix_cons, replace_keeps_bx. reflexivity.
Qed.

Lemma replace_from_no_fbx (s : string) : forall n,
  Py.contains ".fbx" (Py.replace_from ".fbx" ".glb" n s) = false.
Proof.
  induction s as [| c s IH]; intros n; [reflexivity |].
  destruct n as [| n]; [| apply IH].
  change (Py.replace_from ".fbx" ".glb" 0 (String c s))
    with (Py.replace ".fbx" ".glb" (String c s)).
  destruct (replace_fbx_step c s) as [(_ & _ & ->) | (Hp & ->)].
  - change (".glb" ++ Py.replace_from ".fbx" ".glb" 3 s)
      with (String "." (String "g" (String "l" (String "b"
              (Py.replace_from ".fbx" ".glb" 3 s))))).
    cbn [Py.contains]. rewrite IH.
    rewrite !prefix_cons.
    destruct (Py.replace_from ".fbx" ".glb" 3 s); reflexivity.
  - cbn [Py.contains]. unfold Py.replace at 2. rewrite IH, orb_false_r.
    rewrite prefix_cons, replace_keeps_fbx, <- prefix_cons. exact Hp.
Qed.

(** X11. A file name in which [".fbx"] does not occur (no extension, or
    the extension in upper case) is its own destination name: the export
    is then to the output folder joined with the unchanged name. *)
Theorem glb_name_without_extension (H : Host) (f : string) :
  Py.contains ".fbx" f = false ->
  glb_name f = f /\ glb_path H f = os_path_join H output_folder f.
Proof.
  intros Hc. unfold glb_path, glb_name.
  rewrite (replace_absent ".fbx" ".glb" f Hc). auto.
Qed.

(** X12. The destination name never holds [".fbx"], whatever the file
    name, and computing the destination name of a destination name
    changes nothing. *)
Theorem glb_name_idempotent (f : string) :
  Py.contains ".fbx" (glb_name f) = false
  /\ glb_name (glb_name f) = glb_name f.
Proof.
  assert (Hc : Py.contains ".fbx" (glb_name f) = false)
    by apply replace_from_no_fbx.
  split; [exact Hc |]. unfold glb_name at 1. apply replace_absent. exact Hc.
Qed.

(** X13. The destination name is as long as the file name. *)
Theorem glb_name_length (f : string) :
  String.length (glb_name f) = String.length f.
Proof.
  unfold glb_name, Py.replace.
  rewrite (@replace_from_length ".fbx" ".glb" eq_refl f 0). apply Nat.sub_0_r.
Qed.
(** ** The lines and the requests, for every host *)

Section More.

Variable H : Host.
Implicit Types w : World H.

Lemma silent A (P : Call (Block H) (Obj H) -> Prop) (m : M H A) w :
  emits P (fun _ => False) m -> stdout (snd (m w)) = stdout w.
Proof.
  intros Hm. destruct (Hm w) as (t & l & _ & El & _ & Fl).
  destruct l as [| x l]; [rewrite El; apply app_nil_r |].
  inversion Fl as [| ? ? []].
Qed.

Lemma count_objects_silent (type : string) w :
  stdout (snd (@count_objects H type w)) = stdout w.
Proof. eapply silent. apply count_objects_emits. Qed.

Lemma reset_silent w : stdout (snd (@reset H w)) = stdout w.
Proof. eapply silent. apply reset_emits. Qed.

(** The lines of the body of [try]: all four when it returns, the ones
    printed so far when it raises. *)
Lemma convert_outcome (f : string) w :
  exists l,
    stdout (snd (convert f w)) = (stdout w ++ l)%list
    /\ match fst (convert f w) with
       | inr _ =>
           exists m a,
             l = [importing_notice f; found_notice m a; exporting_notice f;
                  converted_notice f]
       | inl _ => cut_lines f l
       end.
Proof.
  unfold convert. rewrite bind_run.
  pose proof (reset_silent w) as Hr.
  destruct (reset w) as [[e | []] w1]; cbn [snd] in Hr.
  { exists []. cbn [fst snd]. rewrite app_nil_r.
    split; [exact Hr | left; reflexivity]. }
  unfold import_and_export. rewrite bind_run.
  unfold import_fbx. rewrite bind_run, print_run.
  destruct (print_raises H (importing_notice f) (host w1)) as [e |].
  { exists []. cbn [fst snd]. rewrite app_nil_r.
    split; [exact Hr | left; reflexivity]. }
  rewrite call_run.
  set (w2 := note _ _ (say (importing_notice f) w1)).
  assert (H2 : stdout w2 = (stdout w ++ [importing_notice f])%list).
  { unfold w2. cbn. rewrite Hr. reflexivity. }
  destruct (fst (bpy_perform H _ (host (say (importing_notice f) w1)))) as [e | []].
  { exists [importing_notice f]. cbn [fst snd].
    split; [exact H2 | right; left; reflexivity]. }
  rewrite bind_run. unfold check_what_we_got. rewrite bind_run.
  pose proof (count_objects_silent "MESH" w2) as Hm.
  destruct (count_objects "MESH" w2) as [[e | m] w3]; cbn [snd] in Hm.
  { exists [importing_notice f]. cbn [fst snd]. rewrite Hm.
    split; [exact H2 | right; left; reflexivity]. }
  rewrite bind_run.
  pose proof (count_objects_silent "ARMATURE" w3) as Ha.
  destruct (count_objects "ARMATURE" w3) as [[e | a] w4]; cbn [snd] in Ha.
  { exists [importing_notice f]. cbn [fst snd]. rewrite Ha, Hm.
    split; [exact H2 | right; left; reflexivity]. }
  rewrite print_run.
  destruct (print_raises H (found_notice m a) (host w4)) as [e |].
  { exists [importing_notice f]. cbn [fst snd]. rewrite Ha, Hm.
    split; [exact H2 | right; left; reflexivity]. }
  rewrite bind_run.
  unfold select_all_for_export. rewrite bind_run, call_run.
  set (w5 := note _ _ (say (found_notice m a) w4)).
  assert (H5 : stdout w5
               = (stdout w ++ [importing_notice f; found_notice m a])%list).
  { unfold w5. cbn. rewrite Ha, Hm, H2, <- app_assoc. reflexivity. }
  destruct (fst (bpy_perform H _ (host (say (found_notice m a) w4)))) as [e | []].
  { exists [importing_notice f; found_notice m a]. cbn [fst snd].
    split; [exact H5 | right; right; left; eauto]. }
  rewrite print_run.
  destruct (print_raises H (exporting_notice f) (host w5)) as [e |].
  { exists [importing_notice f; found_notice m a]. cbn [fst snd].
    split; [exact H5 | right; right; left; eauto]. }
  rewrite export_run. cbv zeta.
  set (w6 := note _ _ (say (exporting_notice f) w5)).
  assert (H6 : stdout w6
               = (stdout w ++ [importing_notice f; found_notice m a;
                               exporting_notice f])%list).
  { unfold w6. cbn [stdout note say]. rewrite H5, <- app_assoc. reflexivity. }
  destruct (fst (bpy_perform H _ (host (say (exporting_notice f) w5)))) as [e | []].
  { exists [importing_notice f; found_notice m a; exporting_notice f].
    cbn [fst snd]. split; [exact H6 | right; right; right; eauto]. }
  rewrite print_run.
  destruct (print_raises H (converted_notice f) (host w6)) as [e |].
  { exists [importing_notice f; found_notice m a; exporting_notice f].
    cbn [fst snd]. split; [exact H6 | right; right; right; eauto]. }
  exists [importing_notice f; found_notice m a; exporting_notice f;
          converted_notice f].
  cbn [fst snd say stdout]. rewrite H6, <- app_assoc.
  split; [reflexivity | eauto].
Qed.

(** The lines of an iteration, and what makes it raise. *)
Lemma iteration_outcome (f : string) w :
  exists l,
    stdout (snd (iteration f w)) = (stdout w ++ l)%list
    /\ match fst (iteration f w) with
       | inr _ => item_lines f l
       | inl e' =>
           cut_lines f l
           /\ (print_raises H (not_found_notice f) (host w) = Some e'
               \/ exists e s, print_raises H (error_notice f e) s = Some e')
       end.
Proof.
  rewrite iteration_run. cbv zeta.
  set (w0 := note (os_path_exists_call (fbx_path H f)) (host w) w).
  destruct (os_path_exists H (fbx_path H f) (host w)).
  2:{ rewrite print_run. change (host w0) with (host w).
      destruct (print_raises H (not_found_notice f) (host w)) as [e' |] eqn:Ep.
      - exists []. cbn [fst snd]. rewrite app_nil_r.
        split; [reflexivity |]. split; [left; reflexivity | left; reflexivity].
      - exists [not_found_notice f]. cbn [fst snd].
        split; [reflexivity | left; reflexivity]. }
  rewrite catch_run.
  destruct (convert_outcome f w0) as (l & El & Hl).
  change (stdout w0) with (stdout w) in El.
  destruct (convert f w0) as [[e | []] w1]; cbn [fst snd] in El, Hl.
  2:{ exists l. cbn [fst snd]. split; [exact El |].
      destruct Hl as (m & a & ->). do 5 right. eauto. }
  unfold on_error. rewrite print_run.
  destruct (print_raises H (error_notice f e) (host w1)) as [e' |] eqn:Ep.
  - exists l. cbn [fst snd]. split; [exact El |]. split; [exact Hl |].
    right. eauto.
  - exists (l ++ [error_notice f e])%list. cbn [fst snd say stdout].
    rewrite El, <- app_assoc. split; [reflexivity |].
    destruct Hl as [-> | [-> | [(m & a & ->) | (m & a & ->)]]]; cbn [app].
    + right; left. eauto.
    + right; right; left. eauto.
    + do 3 right; left. eauto.
    + do 4 right; left. eauto.
Qed.

(** X1. For every host, whether its prints return or raise: when an
    iteration returns, the lines it has printed for the file are one of six
    sequences, the not-found notice alone, or the notices of the steps
    that returned, in the order importing, found, exporting, closed by
    exactly one outcome line, the converted notice after all three or the
    error notice wherever the attempt stopped.  An iteration raises only
    what the print of its not-found notice or of its error notice raises,
    and has then printed the notices of the steps that returned and no
    outcome line. *)
Theorem iteration_lines (f : string) w :
  exists l,
    stdout (snd (iteration f w)) = (stdout w ++ l)%list
    /\ match fst (iteration f w) with
       | inr _ => item_lines f l
       | inl e' =>
           cut_lines f l
           /\ (print_raises H (not_found_notice f) (host w) = Some e'
               \/ exists e s, print_raises H (error_notice f e) s = Some e')
       end.
Proof. apply iteration_outcome. Qed.

(** *** Requests *)

Lemma emits_for_each_in A (P : Call (Block H) (Obj H) -> Prop)
  (Q : string -> Prop) (xs : list A) (body : A -> M H unit) :
  (forall x, In x xs -> emits P Q (body x)) -> emits P Q (for_each xs body).
Proof.
  induction xs as [| x xs IH]; intros Hb.
  - apply emits_ret.
  - apply emits_bind; [apply Hb; left; reflexivity | intros _].
    apply IH. intros y Hy. apply Hb. right; exact Hy.
Qed.

Ltac emits_all :=
  repeat first
    [ apply emits_bind; [| intros ? ]
    | apply emits_catch; [| intros ? ]
    | apply emits_for_each; intros ?
    | apply emits_comprehension; intros ?
    | apply emits_print; exact I
    | apply emits_ret
    | apply emits_call; cbn; auto
    | match goal with |- emits _ _ (if ?b then _ else _) => destruct b end ].

Lemma iteration_allowed (files : list string) (f : string) :
  In f files ->
  emits (allowed H files) (fun _ => True) (@iteration H f).
Proof.
  intros Hin. unfold iteration.
  apply emits_bind.
  { apply emits_path_exists. cbn. eauto. }
  intros found. destruct found; cbn [negb]; [| apply emits_print; exact I].
  unfold convert, reset, clear_scene, clear_orphan_data, purge, purge_step,
    import_and_export, import_fbx, check_what_we_got, count_objects,
    select_all_for_export, export_glb, on_error.
  emits_all; try exact I; cbn; eauto 6.
Qed.

(** X3. For every host and list, every request of the batch is of an
    expected form: an existence test or an import of the source path of a
    listed file, an export to the destination path of a listed file in
    format GLB with animations and forced sampling on, a [select_all] with
    action SELECT, a delete, or a request of the purge or of the counts.
    The batch imports from and exports to no other path. *)
Theorem batch_requests_allowed (files : list string) w :
  exists t,
    calls (snd (batch files w)) = (calls w ++ t)%list
    /\ Forall (allowed H files) t.
Proof.
  assert (Hb : emits (allowed H files) (fun _ => True) (@batch H files)).
  { unfold batch.
    apply emits_bind; [apply emits_for_each; intros ?; apply emits_print; exact I |].
    intros _. apply emits_bind.
    - apply emits_for_each_in. intros f Hf. apply iteration_allowed. exact Hf.
    - intros _. apply emits_for_each; intros ?; apply emits_print; exact I. }
  destruct (Hb w) as (t & l & Et & _ & Ft & _). exists t. auto.
Qed.

(** *** The order of the requests of an attempt *)

Lemma reset_quiet : emits (@quiet _ _) (fun _ => True) (@reset H).
Proof.
  unfold reset, clear_scene, clear_orphan_data, purge, purge_step.
  emits_all; repeat split.
Qed.

Lemma check_quiet : emits (@quiet _ _) (fun _ => True) (@check_what_we_got H).
Proof.
  unfold check_what_we_got, count_objects. emits_all; repeat split.
Qed.

Lemma calls_say (line : string) w : calls (say line w) = calls w.
Proof. reflexivity. Qed.

Lemma attempt_shape (f : string) w :
  exists t_r t_q t,
    Forall (@quiet _ _) t_r /\ Forall (@quiet _ _) t_q
    /\ calls (snd (catch (convert f) (on_error f) w)) = (calls w ++ t)%list
    /\ (t = t_r
        \/ t = (t_r ++ bpy (import_scene_fbx (fbx_path H f)) :: t_q)%list
        \/ t = (t_r ++ bpy (import_scene_fbx (fbx_path H f)) :: t_q
                ++ [bpy (export_scene_gltf (glb_path H f) "GLB" true true)])%list).
Proof.
  rewrite (proj2 (try_host f w)). unfold convert. rewrite bind_run.
  destruct (reset_quiet w) as (t_r & _ & Er & _ & Fr & _).
  destruct (reset w) as [[e | []] w1]; cbn [snd] in Er.
  { exists t_r, [], t_r. split; [exact Fr |]. split; [constructor |].
    split; [exact Er | left; reflexivity]. }
  unfold import_and_export. rewrite bind_run.
  unfold import_fbx. rewrite bind_run, print_run.
  destruct (print_raises H (importing_notice f) (host w1)) as [e |].
  { exists t_r, [], t_r. split; [exact Fr |]. split; [constructor |].
    split; [exact Er | left; reflexivity]. }
  rewrite call_run.
  set (w2 := note _ _ (say (importing_notice f) w1)).
  assert (E2 : calls w2
               = (calls w ++ t_r ++ [bpy (import_scene_fbx (fbx_path H f))])%list).
  { unfold w2. cbn. rewrite Er, <- app_assoc. reflexivity. }
  destruct (fst (bpy_perform H _ (host (say (importing_notice f) w1)))) as [e | []].
  { exists t_r, [], (t_r ++ [bpy (import_scene_fbx (fbx_path H f))])%list.
    split; [exact Fr |]. split; [constructor |].
    split; [exact E2 | right; left; reflexivity]. }
  rewrite bind_run.
  destruct (check_quiet w2) as (t_c & _ & Ec & _ & Fc & _).
  destruct (check_what_we_got w2) as [[e | []] w3]; cbn [snd] in Ec.
  { exists t_r, t_c, (t_r ++ bpy (import_scene_fbx (fbx_path H f)) :: t_c)%list.
    split; [exact Fr |]. split; [exact Fc |]. split; [| right; left; reflexivity].
    cbn [snd]. rewrite Ec, E2. rewrite <- !app_assoc. reflexivity. }
  rewrite bind_run. unfold select_all_for_export.
  rewrite bind_run, call_run.
  set (sel := bpy (object_select_all "SELECT") : Call (Block H) (Obj H)).
  assert (Fs : Forall (@quiet _ _) (t_c ++ [sel])).
  { apply Forall_app. split; [exact Fc |]. constructor; [| constructor].
    repeat split. }
  set (w4 := note _ _ w3).
  assert (E4 : calls w4
               = (calls w ++ t_r ++ bpy (import_scene_fbx (fbx_path H f))
                    :: (t_c ++ [sel]))%list).
  { unfold w4. cbn. rewrite Ec, E2. rewrite <- !app_assoc. reflexivity. }
  destruct (fst (bpy_perform H _ (host w3))) as [e | []].
  { exists t_r, (t_c ++ [sel])%list,
      (t_r ++ bpy (import_scene_fbx (fbx_path H f)) :: (t_c ++ [sel]))%list.
    split; [exact Fr |]. split; [exact Fs |].
    split; [exact E4 | right; left; reflexivity]. }
  rewrite print_run.
  destruct (print_raises H (exporting_notice f) (host w4)) as [e |].
  { exists t_r, (t_c ++ [sel])%list,
      (t_r ++ bpy (import_scene_fbx (fbx_path H f)) :: (t_c ++ [sel]))%list.
    split; [exact Fr |]. split; [exact Fs |].
    split; [exact E4 | right; left; reflexivity]. }
  rewrite export_run. cbv zeta.
  exists t_r, (t_c ++ [sel])%list,
    (t_r ++ bpy (import_scene_fbx (fbx_path H f)) :: (t_c ++ [sel])
       ++ [bpy (export_scene_gltf (glb_path H f) "GLB" true true)])%list.
  split; [exact Fr |]. split; [exact Fs |]. split; [| right; right; reflexivity].
  destruct (fst (bpy_perform H _ (host (say (exporting_notice f) w4)))) as [e | []];
    rewrite ?print_calls; cbn [snd calls note say];
    rewrite E4; repeat (rewrite <- app_assoc; cbn [app]); reflexivity.
Qed.

(** X4. For every host, the requests of an iteration come in a fixed
    order: the existence test first; then requests that are neither
    import nor export (the reset); then, if the attempt got that far,
    the import of the source path; then again requests that are neither
    (the counts and the selection); and last, if the attempt got that
    far, the export to the destination path, after which nothing is
    requested.  Nothing is imported or exported twice, and nothing is
    exported before its import was sent. *)
Theorem attempt_order (f : string) w :
  exists t_r t_q t,
    Forall (@quiet _ _) t_r /\ Forall (@quiet _ _) t_q
    /\ calls (snd (iteration f w))
       = (calls w ++ os_path_exists_call (fbx_path H f) :: t)%list
    /\ (t = t_r
        \/ t = (t_r ++ bpy (import_scene_fbx (fbx_path H f)) :: t_q)%list
        \/ t = (t_r ++ bpy (import_scene_fbx (fbx_path H f)) :: t_q
                ++ [bpy (export_scene_gltf (glb_path H f) "GLB" true true)])%list).
Proof.
  rewrite iteration_run. cbv zeta.
  set (w0 := note (os_path_exists_call (fbx_path H f)) (host w) w).
  destruct (os_path_exists H (fbx_path H f) (host w)).
  - destruct (attempt_shape f w0) as (t_r & t_q & t & Fr & Fq & Et & Hs).
    exists t_r, t_q, t. split; [exact Fr |]. split; [exact Fq |].
    split; [| exact Hs]. rewrite Et. unfold w0. cbn [calls note].
    rewrite <- app_assoc. reflexivity.
  - exists [], [], []. split; [constructor |]. split; [constructor |].
    split; [rewrite print_calls; reflexivity | left; reflexivity].
Qed.

(** *** No retry *)

Lemma how_many_app (p : Call (Block H) (Obj H) -> bool) (a b : list _) :
  how_many p (a ++ b) = how_many p a + how_many p b.
Proof. unfold how_many. rewrite filter_app, List.length_app. reflexivity. Qed.

Lemma how_many_quiet (t : list (Call (Block H) (Obj H))) :
  Forall (@quiet _ _) t ->
  how_many (@is_exists_test _ _) t = 0
  /\ how_many (@is_import _ _) t = 0 /\ how_many (@is_export _ _) t = 0.
Proof.
  unfold how_many.
  induction 1 as [| c t (Hx & Hi & He) _ (IHx & IHi & IHe)]; [auto |].
  cbn. rewrite Hx, Hi, He. auto.
Qed.

Lemma iteration_counts (f : string) w :
  exists t,
    calls (snd (iteration f w)) = (calls w ++ t)%list
    /\ how_many (@is_exists_test _ _) t = 1
    /\ how_many (@is_export _ _) t <= how_many (@is_import _ _) t
    /\ how_many (@is_import _ _) t <= 1.
Proof.
  rewrite iteration_run. cbv zeta.
  set (w0 := note (os_path_exists_call (fbx_path H f)) (host w) w).
  destruct (os_path_exists H (fbx_path H f) (host w)).
  - destruct (attempt_shape f w0) as (t_r & t_q & t & Fr & Fq & Et & Hs).
    destruct (how_many_quiet Fr) as (Rx & Ri & Re).
    destruct (how_many_quiet Fq) as (Qx & Qi & Qe).
    exists ([os_path_exists_call (fbx_path H f)] ++ t)%list.
    split.
    { rewrite Et. unfold w0. cbn [calls note]. rewrite <- app_assoc.
      reflexivity. }
    rewrite !how_many_app.
    assert (Ht : how_many (@is_exists_test _ _) t = 0
                 /\ how_many (@is_export _ _) t <= how_many (@is_import _ _) t
                 /\ how_many (@is_import _ _) t <= 1).
    { destruct Hs as [-> | [-> | ->]].
      - rewrite Rx, Ri, Re. lia.
      - change (?a :: t_q)%list with ([a] ++ t_q)%list.
        rewrite !how_many_app, Rx, Ri, Re, Qx, Qi, Qe. cbn. lia.
      - change (?a :: t_q ++ ?b)%list with ([a] ++ t_q ++ b)%list.
        rewrite !how_many_app, Rx, Ri, Re, Qx, Qi, Qe. cbn. lia. }
    cbn. lia.
  - exists [os_path_exists_call (fbx_path H f)]. rewrite print_calls.
    cbn. auto.
Qed.

Lemma loop_counts (files : list string) : forall w,
  exists t,
    calls (snd (for_each files (@iteration H) w)) = (calls w ++ t)%list
    /\ how_many (@is_exists_test _ _) t <= List.length files
    /\ (forall w', for_each files (@iteration H) w = (inr tt, w') ->
        how_many (@is_exists_test _ _) t = List.length files)
    /\ how_many (@is_export _ _) t <= how_many (@is_import _ _) t
    /\ how_many (@is_import _ _) t <= how_many (@is_exists_test _ _) t.
Proof.
  induction files as [| f files IH]; intros w.
  - exists []. cbn. rewrite app_nil_r. auto.
  - destruct (iteration_counts f w) as (t1 & Et1 & X1 & L1 & I1).
    destruct (iteration f w) as [[e | []] w1] eqn:E1; cbn [snd] in Et1.
    + rewrite (@loop_raises H f files w e w1 E1). cbn [snd].
      exists t1. split; [exact Et1 |]. cbn [List.length].
      split; [lia |]. split; [intros w' Ew'; discriminate Ew' | lia].
    + rewrite (@loop_step H f files w w1 E1).
      destruct (IH w1) as (t2 & Et2 & X2 & R2 & L2 & I2).
      exists (t1 ++ t2)%list. rewrite Et2, Et1, <- app_assoc, !how_many_app.
      cbn [List.length]. split; [reflexivity |]. split; [lia |].
      split; [| lia]. intros w' Ew'. rewrite (R2 w' Ew'). lia.
Qed.

(** X5. For every host and list of n files, the batch tests existence at
    most n times, and exactly n times when it returns; it imports at most
    as often as it tests and exports at most as often as it imports: one
    pass, no retry. *)
Theorem batch_no_retry (files : list string) w :
  exists t,
    calls (snd (batch files w)) = (calls w ++ t)%list
    /\ how_many (@is_exists_test _ _) t <= List.length files
    /\ (forall w', batch files w = (inr tt, w') ->
        how_many (@is_exists_test _ _) t = List.length files)
    /\ how_many (@is_export _ _) t <= how_many (@is_import _ _) t
    /\ how_many (@is_import _ _) t <= how_many (@is_exists_test _ _) t.
Proof.
  unfold batch. rewrite bind_run.
  destruct (for_each_print_host opening w) as [_ Ec0].
  destruct (for_each opening (@print H) w) as [[e | []] w0]; cbn [snd] in Ec0.
  { exists []. cbn [snd]. rewrite Ec0, app_nil_r. cbn.
    split; [reflexivity |]. split; [lia |].
    split; [intros w' Ew'; discriminate Ew' | lia]. }
  rewrite bind_run.
  destruct (loop_counts files w0) as (t & Et & Hle & Hret & Hc).
  rewrite Ec0 in Et.
  destruct (for_each files (@iteration H) w0) as [[e | []] w1]; cbn [snd] in Et.
  { exists t. cbn [snd]. split; [exact Et |]. split; [exact Hle |].
    split; [intros w' Ew'; discriminate Ew' | exact Hc]. }
  destruct (for_each_print_host closing w1) as [_ Ec1].
  exists t. rewrite Ec1. split; [exact Et |]. split; [exact Hle |].
  split; [intros w' _; apply (Hret w1 eq_refl) | exact Hc].
Qed.

(** *** A batch of missing files *)

(** What the loop has done once it has tested [tested] of the files. *)
Lemma loop_all_missing (files : list string) : forall w,
  (forall f, In f files -> os_path_exists H (fbx_path H f) (host w) = false) ->
  host (snd (for_each files (@iteration H) w)) = host w
  /\ (exists tested rest,
        files = (tested ++ rest)%list
        /\ calls (snd (for_each files (@iteration H) w))
           = (calls w
              ++ map (fun f => os_path_exists_call (fbx_path H f)) tested)%list)
  /\ (prints_return H ->
      for_each files (@iteration H) w
      = (inr tt,
         {| host := host w;
            stdout := stdout w ++ map not_found_notice files;
            calls := calls w
                     ++ map (fun f => os_path_exists_call (fbx_path H f)) files |})).
Proof.
  induction files as [| f files IH]; intros w Hm.
  - split; [reflexivity |]. split.
    + exists [], []. cbn. rewrite app_nil_r. auto.
    + intros _. cbn. rewrite !app_nil_r. destruct w; reflexivity.
  - set (w0 := note (os_path_exists_call (fbx_path H f)) (host w) w).
    assert (E : iteration f w = print (not_found_notice f) w0)
      by (apply skip_run; apply Hm; left; reflexivity).
    rewrite print_run in E. change (host w0) with (host w) in E.
    destruct (print_raises H (not_found_notice f) (host w)) as [e |] eqn:Ep.
    + rewrite (@loop_raises H f files w e w0 E). cbn [snd].
      split; [reflexivity |]. split.
      * exists [f], files. split; reflexivity.
      * intros Hp. rewrite Hp in Ep. discriminate Ep.
    + rewrite (@loop_step H f files w _ E).
      destruct (IH (say (not_found_notice f) w0)) as (Hh & Ht & Hr).
      { intros g Hg. cbn. apply Hm. right; exact Hg. }
      split; [rewrite Hh; reflexivity |]. split.
      * destruct Ht as (tested & rest & -> & Et).
        exists (f :: tested), rest. split; [reflexivity |].
        rewrite Et. cbn. rewrite <- app_assoc. reflexivity.
      * intros Hp. rewrite (Hr Hp). cbn. rewrite <- !app_assoc. reflexivity.
Qed.

(** X6. When none of the listed files exists, the batch sends Blender no
    request and leaves the host as it was, whether its prints return or
    raise: its only interactions are the existence tests of the first
    files of the list, in order.  Where no print raises it tests every
    file and prints the opening lines, one not-found notice per file in
    the order of the list, and the closing lines. *)
Theorem batch_all_missing (files : list string) w :
  (forall f, In f files -> os_path_exists H (fbx_path H f) (host w) = false) ->
  host (snd (batch files w)) = host w
  /\ (exists tested rest,
        files = (tested ++ rest)%list
        /\ calls (snd (batch files w))
           = (calls w
              ++ map (fun f => os_path_exists_call (fbx_path H f)) tested)%list)
  /\ (prints_return H ->
      batch files w
      = (inr tt,
         {| host := host w;
            stdout := stdout w ++ opening ++ map not_found_notice files ++ closing;
            calls := calls w
                     ++ map (fun f => os_path_exists_call (fbx_path H f)) files |})).
Proof.
  intros Hm.
  assert (Hall : prints_return H ->
            batch files w
            = (inr tt,
               {| host := host w;
                  stdout := stdout w ++ opening ++ map not_found_notice files
                            ++ closing;
                  calls := calls w
                           ++ map (fun f => os_path_exists_call (fbx_path H f))
                                files |})).
  { intros Hp. unfold batch.
    rewrite bind_run, for_each_print by (intros; apply Hp). rewrite bind_run.
    destruct (@loop_all_missing files
                {| host := host w; stdout := stdout w ++ opening;
                   calls := calls w |} Hm) as (_ & _ & Hr).
    rewrite (Hr Hp). rewrite for_each_print by (intros; apply Hp).
    cbn. rewrite <- !app_assoc. reflexivity. }
  assert (Hsome : host (snd (batch files w)) = host w
            /\ exists tested rest,
                 files = (tested ++ rest)%list
                 /\ calls (snd (batch files w))
                    = (calls w
                       ++ map (fun f => os_path_exists_call (fbx_path H f))
                            tested)%list).
  { unfold batch. rewrite bind_run.
    destruct (for_each_print_host opening w) as [Eh0 Ec0].
    destruct (for_each opening (@print H) w) as [[e | []] w0];
      cbn [snd] in Eh0, Ec0.
    { cbn [snd]. split; [exact Eh0 |].
      exists [], files. cbn. rewrite app_nil_r. auto. }
    rewrite bind_run.
    destruct (@loop_all_missing files w0) as (Hh & (tested & rest & Ef & Et) & _).
    { rewrite Eh0. exact Hm. }
    rewrite Eh0 in Hh. rewrite Ec0 in Et.
    destruct (for_each files (@iteration H) w0) as [[e | []] w1];
      cbn [snd] in Hh, Et.
    { cbn [snd]. split; [exact Hh |]. exists tested, rest. auto. }
    destruct (for_each_print_host closing w1) as [Eh1 Ec1].
    rewrite Eh1, Ec1. split; [exact Hh |]. exists tested, rest. auto. }
  destruct Hsome as [Hh Ht]. auto.
Qed.

(** X14. A file whose source path does not exist gets nothing but its
    existence test, made first, and the print of the not-found notice:
    Blender receives no request and the host stays as it was, whether the
    print returns or raises.  When the print returns, the notice is the
    one line of the item and the loop goes on with the next file; when it
    raises, nothing is printed and what it raises leaves the loop. *)
Theorem missing_file_requests_nothing (f : string) (rest : list string) w :
  os_path_exists H (fbx_path H f) (host w) = false ->
  let w0 := note (os_path_exists_call (fbx_path H f)) (host w) w in
  let line := "❌ Not found: " ++ f in
  iteration f w = print line w0
  /\ host (snd (iteration f w)) = host w
  /\ calls (snd (iteration f w))
     = (calls w ++ [os_path_exists_call (fbx_path H f)])%list
  /\ (print_raises H line (host w) = None ->
      iteration f w = (inr tt, say line w0)
      /\ stdout (say line w0) = (stdout w ++ [line])%list
      /\ for_each (f :: rest) (@iteration H) w
         = for_each rest (@iteration H) (say line w0))
  /\ (forall e, print_raises H line (host w) = Some e ->
      iteration f w = (inl e, w0)
      /\ stdout w0 = stdout w
      /\ for_each (f :: rest) (@iteration H) w = (inl e, w0)).
Proof.
  intros Hmissing w0 line.
  assert (El : line = not_found_notice f) by reflexivity.
  clearbody line. subst line.
  assert (E : iteration f w = print (not_found_notice f) w0)
    by (apply skip_run; exact Hmissing).
  split; [exact E |].
  split; [rewrite E, print_host; reflexivity |].
  split; [rewrite E, print_calls; reflexivity |].
  split.
  - intros Hp.
    assert (E' : iteration f w = (inr tt, say (not_found_notice f) w0))
      by (rewrite E; apply print_returns; exact Hp).
    split; [exact E' |]. split; [reflexivity | apply loop_step; exact E'].
  - intros e Hp.
    assert (E' : iteration f w = (inl e, w0))
      by (rewrite E; apply print_raised; exact Hp).
    split; [exact E' |]. split; [reflexivity | apply loop_raises; exact E'].
Qed.

(** *** The lines of the batch *)

Lemma loop_lines (files : list string) :
  prints_return H ->
  forall w,
  exists w' ls,
    for_each files (@iteration H) w = (inr tt, w')
    /\ stdout w' = (stdout w ++ concat ls)%list
    /\ Forall2 item_lines files ls.
Proof.
  intros Hp. induction files as [| f files IH]; intros w.
  - exists w, []. cbn. rewrite app_nil_r. auto.
  - destruct (iteration_returns f w Hp) as (w1 & E1).
    destruct (iteration_outcome f w) as (l & El & Hl).
    rewrite E1 in El, Hl. cbn [fst snd] in El, Hl.
    destruct (IH w1) as (w' & ls & E' & Eo & F).
    exists w', (l :: ls). rewrite (@loop_step H f files w w1 E1).
    split; [exact E' |]. split.
    + rewrite Eo, El. cbn [concat]. rewrite app_assoc. reflexivity.
    + constructor; assumption.
Qed.

(** X15. Where no print raises, for every list of files, the empty one
    included, the batch returns, and what it prints is the opening lines,
    then for each file of the list, in order, one of the six sequences of
    lines of an item, then the closing lines; the banner, which is the
    text [Conversion Complete!], is none of the lines of the items, so it
    is printed exactly once, after the last item. *)
Theorem batch_lines_in_order (files : list string) w :
  prints_return H ->
  exists w' ls,
    batch files w = (inr tt, w')
    /\ stdout w' = (stdout w ++ opening ++ concat ls ++ closing)%list
    /\ Forall2 item_lines files ls
    /\ ~ In banner (concat ls)
    /\ count_occ string_dec (opening ++ concat ls ++ closing) banner = 1
    /\ banner = "Conversion Complete!".
Proof.
  intros Hp. unfold batch.
  rewrite bind_run, for_each_print by (intros; apply Hp). rewrite bind_run.
  set (w0 := {| host := host w; stdout := stdout w ++ opening;
                calls := calls w |}).
  destruct (loop_lines files Hp w0) as (w1 & ls & E1 & Eo & F).
  destruct (loop_emits files w0) as (t & lines & _ & El & _ & Fl).
  rewrite E1 in *. cbn [snd] in El.
  assert (Esame : lines = concat ls).
  { rewrite Eo in El. apply app_inv_head in El. symmetry. exact El. }
  subst lines.
  rewrite for_each_print by (intros; apply Hp).
  assert (Hnot : ~ In banner (concat ls)).
  { intros Hin. rewrite Forall_forall in Fl. exact (Fl _ Hin eq_refl). }
  exists {| host := host w1; stdout := stdout w1 ++ closing; calls := calls w1 |},
    ls.
  split; [reflexivity |]. split.
  { cbn. rewrite Eo. unfold w0. cbn. rewrite <- !app_assoc. reflexivity. }
  split; [exact F |]. split; [exact Hnot |]. split; [| reflexivity].
  rewrite !count_occ_app.
  rewrite (proj1 (count_occ_not_In string_dec (concat ls) banner) Hnot).
  reflexivity.
Qed.

(** *** No request about a removed block *)

Lemma about_unique (b b' : Block H) (c : Call (Block H) (Obj H)) :
  about b c -> about b' c -> b = b'.
Proof.
  destruct c as [p | X r]; [intros [] |].
  destruct r; cbn; try (intros []); congruence.
Qed.

Lemma never_after_removal_app (t1 t2 : list (Call (Block H) (Obj H))) :
  never_after_removal t1 -> never_after_removal t2 ->
  (forall b c, In c t1 -> removes b c -> Forall (fun c' => ~ about b c') t2) ->
  never_after_removal (t1 ++ t2).
Proof.
  induction t1 as [| c t1 IH]; intros H1 H2 Hx; [exact H2 |].
  destruct H1 as [Hc H1]. cbn. split.
  - intros b Hb. apply Forall_app. split; [apply Hc; exact Hb |].
    apply (Hx b c); [left; reflexivity | exact Hb].
  - apply IH; [exact H1 | exact H2 |].
    intros b c' Hin. apply Hx. right; exact Hin.
Qed.

Lemma purge_step_trace (k : Kind) (b : Block H) w :
  exists t,
    calls (snd (purge_step k b w)) = (calls w ++ t)%list
    /\ (t = [bpy (block_users b)]
        \/ t = [bpy (block_users b); bpy (data_remove k b)]).
Proof.
  unfold purge_step. rewrite bind_run, call_run.
  destruct (fst (bpy_perform H (block_users b) (host w))) as [e | n].
  - exists [bpy (block_users b)]. split; [reflexivity | left; reflexivity].
  - destruct (Nat.eqb n 0).
    + rewrite call_run. exists [bpy (block_users b); bpy (data_remove k b)].
      split; [| right; reflexivity].
      destruct (fst (bpy_perform H (data_remove k b) _)); cbn;
        rewrite <- app_assoc; reflexivity.
    + exists [bpy (block_users b)]. split; [reflexivity | left; reflexivity].
Qed.

Lemma purge_loop_trace (k : Kind) (todo : list (Block H)) : forall w,
  NoDup todo ->
  exists t,
    calls (snd (for_each todo (purge_step k) w)) = (calls w ++ t)%list
    /\ never_after_removal t
    /\ Forall (fun c => exists b, In b todo /\ about b c) t.
Proof.
  induction todo as [| b todo IH]; intros w Hnd.
  - exists []. cbn. rewrite app_nil_r. auto.
  - inversion Hnd as [| ? ? Hb Hnd']; subst.
    change (for_each (b :: todo) (purge_step k))
      with (bind (purge_step k b) (fun _ => for_each todo (purge_step k))).
    rewrite bind_run.
    destruct (purge_step_trace k b w) as (t1 & Et1 & Hs).
    assert (A1 : Forall (fun c => about b c) t1).
    { destruct Hs as [-> | ->]; repeat constructor. }
    assert (N1 : never_after_removal t1).
    { destruct Hs as [-> | ->]; cbn; repeat split; try (intros ? []); auto. }
    assert (F1 : Forall (fun c => exists b', In b' (b :: todo) /\ about b' c) t1).
    { eapply Forall_impl; [| exact A1]. intros c Hc. exists b.
      split; [left; reflexivity | exact Hc]. }
    destruct (purge_step k b w) as [[e | []] w1]; cbn [snd] in *.
    + exists t1. auto.
    + destruct (IH w1 Hnd') as (t2 & Et2 & N2 & F2).
      exists (t1 ++ t2)%list. rewrite Et2, Et1, <- app_assoc.
      split; [reflexivity |]. split.
      * apply never_after_removal_app; [exact N1 | exact N2 |].
        intros b0 c Hin Hrm.
        assert (Hsame : b0 = b).
        { rewrite Forall_forall in A1. specialize (A1 c Hin).
          destruct c as [p | X r]; [destruct Hrm |].
          destruct r; cbn in *; try destruct Hrm; congruence. }
        subst b0. eapply Forall_impl; [| exact F2].
        intros c' (b' & Hb' & Ha') Hab.
        rewrite (about_unique _ _ _ Hab Ha') in Hb. exact (Hb Hb').
      * apply Forall_app. split; [exact F1 |].
        eapply Forall_impl; [| exact F2].
        intros c (b' & Hb' & Ha'). exists b'. split; [right; exact Hb' | exact Ha'].
Qed.

(** X7. For every host: when the traversal of a collection yields each
    block once, every request of the purge loop reads or removes a block
    the traversal yielded and, once the loop has removed a block, it sends
    no further request about that block. *)
Theorem purge_never_touches_removed (k : Kind) w visited s :
  bpy_perform H (data_iter k) (host w) = (inr visited, s) ->
  NoDup visited ->
  exists t,
    calls (snd (purge k w)) = (calls w ++ bpy (data_iter k) :: t)%list
    /\ never_after_removal t
    /\ Forall (fun c => exists b, In b visited /\ about b c) t.
Proof.
  intros Ei Hnd. unfold purge. rewrite bind_run, call_run, Ei. cbn [fst snd].
  destruct (purge_loop_trace k (note (bpy (data_iter k)) s w) Hnd)
    as (t & Et & Hn & Hf).
  exists t. rewrite Et. cbn. rewrite <- app_assoc. auto.
Qed.

End More.
(** X2. The six kinds of line are pairwise different, whatever the file
    names, the counts and the reason: the outcome of an item can be read
    off its last line, although the not-found and the error notice start
    with the same mark. *)
Theorem notices_pairwise_distinct (f1 f2 f3 f4 f5 : string) (m a : nat)
  (e : Exception) :
  NoDup [ not_found_notice f1; importing_notice f2; found_notice m a;
          exporting_notice f3; converted_notice f4; error_notice f5 e ].
Proof.
  unfold not_found_notice, importing_notice, found_notice, exporting_notice,
    converted_notice, error_notice.
  repeat constructor; cbn;
    repeat (let E := fresh in intros [E | E]; [discriminate E | revert E]);
    intros [].
Qed.

(** ** The scene, continued *)

Section Scene_more.

Variable H : Host.
Variable V : View H.
Hypothesis L : Blender V.
Implicit Types w : World H.

Lemma reset_exact w :
  plain V (host w) ->
  exists wc w3 w4 w',
    clear_scene w = (inr tt, wc)
    /\ purge meshes wc = (inr tt, w3)
    /\ purge armatures w3 = (inr tt, w4)
    /\ purge actions w4 = (inr tt, w')
    /\ reset w = (inr tt, w')
    /\ (forall b, In b (blocks V meshes (host w')) <->
                  In b (blocks V meshes (host w)) /\ users V (host wc) b <> 0)
    /\ (forall b, In b (blocks V armatures (host w')) <->
                  In b (blocks V armatures (host w)) /\ users V (host w3) b <> 0)
    /\ (forall b, In b (blocks V actions (host w')) <->
                  In b (blocks V actions (host w)) /\ users V (host w4) b <> 0).
Proof.
  intros Hplain.
  destruct (@clear_scene_spec H V L w Hplain) as (wc & Ec & _ & _ & _ & Hblk & _).
  destruct (@purge_spec H V L meshes wc) as (w3 & E3 & _ & _ & Hb3 & Hk3 & _).
  destruct (@purge_spec H V L armatures w3) as (w4 & E4 & _ & _ & Hb4 & Hk4 & _).
  destruct (@purge_spec H V L actions w4) as (w5 & E5 & _ & _ & Hb5 & Hk5 & _).
  exists wc, w3, w4, w5. do 4 (split; [assumption |]). split.
  { rewrite (@reset_run H w wc Ec). unfold clear_orphan_data.
    rewrite bind_run, E3, bind_run, E4. exact E5. }
  split; [| split]; intros b.
  - rewrite (Hk5 meshes), (Hk4 meshes), Hb3, Hblk by discriminate. reflexivity.
  - rewrite (Hk5 armatures), Hb4, (Hk3 armatures), Hblk by discriminate.
    reflexivity.
  - rewrite Hb5, (Hk4 actions), (Hk3 actions), Hblk by discriminate. reflexivity.
Qed.

(** X8. Under the contract, from a plain state, the reset removes, from
    each of the three collections, exactly the blocks that have no user
    when the loop over that collection starts (for the meshes: once the
    objects are deleted), and keeps every other block: a block is in a
    collection after the reset if and only if it was there before and had
    a user then. *)
Theorem reset_removes_exactly_unused w :
  plain V (host w) ->
  exists wc w3 w4 w',
    clear_scene w = (inr tt, wc)
    /\ purge meshes wc = (inr tt, w3)
    /\ purge armatures w3 = (inr tt, w4)
    /\ purge actions w4 = (inr tt, w')
    /\ reset w = (inr tt, w')
    /\ (forall b, In b (blocks V meshes (host w')) <->
                  In b (blocks V meshes (host w)) /\ users V (host wc) b <> 0)
    /\ (forall b, In b (blocks V armatures (host w')) <->
                  In b (blocks V armatures (host w)) /\ users V (host w3) b <> 0)
    /\ (forall b, In b (blocks V actions (host w')) <->
                  In b (blocks V actions (host w)) /\ users V (host w4) b <> 0).
Proof. apply reset_exact. Qed.

(** X10. Under the contract, where no print raises, the outcome of a file
    whose source exists and whose iteration starts in a plain state is
    decided by its import and its export alone; the reset, the counts and
    the selection return.  If the import raises, the lines are the
    importing and the error notice.  If it returns, the steps up to the
    export return and print the counts of the file; then, if the export
    raises, the error notice follows, and if it returns, the converted
    notice follows and the GLB at the destination path is the one just
    written.  A file without mesh and armature is converted like any
    other. *)
Theorem outcome_by_import_and_export (f : string) w :
  prints_return H ->
  plain V (host w) ->
  os_path_exists H (fbx_path H f) (host w) = true ->
  let w0 := note (os_path_exists_call (fbx_path H f)) (host w) w in
  let import := import_scene_fbx (fbx_path H f) in
  let export := export_scene_gltf (glb_path H f) "GLB" true true in
  exists w1,
    reset w0 = (inr tt, w1)
    /\ (forall e s2,
          bpy_perform H import (host w1) = (inl e, s2) ->
          exists w',
            iteration f w = (inr tt, w') /\ host w' = s2
            /\ stdout w' = (stdout w ++ [importing_notice f; error_notice f e])%list)
    /\ (forall s2,
          bpy_perform H import (host w1) = (inr tt, s2) ->
          exists w3,
            before_export f w0 = (inr tt, w3)
            /\ stdout w3
               = (stdout w
                  ++ [importing_notice f;
                      found_notice
                        (count_type "MESH" (fbx_types V (fbx_path H f) (host w)))
                        (count_type "ARMATURE" (fbx_types V (fbx_path H f) (host w)));
                      exporting_notice f])%list
            /\ (forall e s4,
                  bpy_perform H export (host w3) = (inl e, s4) ->
                  exists w',
                    iteration f w = (inr tt, w') /\ host w' = s4
                    /\ stdout w' = (stdout w3 ++ [error_notice f e])%list)
            /\ (forall s4,
                  bpy_perform H export (host w3) = (inr tt, s4) ->
                  exists w',
                    iteration f w = (inr tt, w') /\ host w' = s4
                    /\ stdout w' = (stdout w3 ++ [converted_notice f])%list
                    /\ glb_at V (glb_path H f) s4 = Some (glb_of V (host w3)))).
Proof.
  intros Hp Hplain Hexists w0 import export.
  assert (Eiter : iteration f w = catch (convert f) (on_error f) w0).
  { rewrite iteration_run. cbv zeta. rewrite Hexists. reflexivity. }
  destruct (@reset_spec H V L w0 Hplain)
    as (w1 & E & Hout & _ & Hobj & _ & _ & Hfbx & Hp1).
  exists w1. split; [exact E |]. split.
  - intros e s2 Eimp. eexists. split.
    { rewrite Eiter, catch_run. unfold convert. rewrite bind_run, E.
      unfold import_and_export. rewrite bind_run.
      unfold import_fbx. rewrite bind_run, print_returns by apply Hp.
      rewrite call_run. cbn [host say]. fold import. rewrite Eimp.
      cbn [fst snd]. unfold on_error. rewrite print_returns by apply Hp.
      reflexivity. }
    cbn. rewrite Hout. split; [reflexivity |]. rewrite <- app_assoc. reflexivity.
  - intros s2 Eimp.
    set (w2 := note (bpy import) s2 (say (importing_notice f) w1)).
    assert (E2 : import_fbx f w1 = (inr tt, w2)).
    { unfold import_fbx. rewrite bind_run, print_returns by apply Hp.
      rewrite call_run. cbn [host say]. fold import. rewrite Eimp. reflexivity. }
    destruct (import_spec L _ _ Eimp) as (new & Hnew & Htypes & Hp2).
    destruct (@check_what_we_got_spec H V L w2) as (wb & Ec & Hhb & Hob).
    cbn [host stdout w2 note say] in Ec, Hhb, Hob.
    rewrite Hnew, Hobj in Ec. cbn [app] in Ec.
    rewrite Htypes, Hfbx in Ec. cbn [host w0 note] in Ec.
    rewrite print_returns in Ec by apply Hp.
    set (line := found_notice _ _) in *.
    destruct (select_all_spec L (host wb)) as (s3 & Es & _).
    { rewrite Hhb. apply Hp2, Hp1. }
    set (w4 := say (exporting_notice f)
                 (note (bpy (object_select_all "SELECT")) s3 (say line wb))).
    assert (E4 : before_export f w0 = (inr tt, w4)).
    { unfold before_export. rewrite bind_run, E, bind_run, E2, bind_run, Ec.
      unfold select_all_for_export. rewrite bind_run, call_run.
      cbn [host say]. rewrite Es. cbn [fst snd].
      rewrite print_returns by apply Hp. reflexivity. }
    exists w4. split; [exact E4 |]. split.
    { unfold w4. cbn [stdout say note]. rewrite Hob, Hout. cbn [stdout w0 note].
      rewrite <- !app_assoc. reflexivity. }
    split.
    + intros e s4 Eexp. eexists. split.
      { rewrite Eiter, catch_run, (@convert_from_export H f w0 w4 E4), export_run.
        cbv zeta. fold export. rewrite Eexp. cbn [fst snd].
        unfold on_error. rewrite print_returns by apply Hp. reflexivity. }
      cbn. auto.
    + intros s4 Eexp. eexists. split.
      { rewrite Eiter, catch_run, (@convert_from_export H f w0 w4 E4), export_run.
        cbv zeta. fold export. rewrite Eexp. cbn [fst snd].
        rewrite print_returns by apply Hp. reflexivity. }
      cbn [host stdout say note]. split; [reflexivity |]. split; [reflexivity |].
      apply (export_spec L _ _ Eexp).
Qed.

End Scene_more.


(** ** The further properties at the reference host *)

Lemma glb_name_without_extension_witness :
  Py.contains ".fbx" "A.FBX" = false
  /\ (glb_name "A.FBX" = "A.FBX"
      /\ glb_path Ref.platform "A.FBX"
         = os_path_join Ref.platform output_folder "A.FBX").
Proof.
  split; [reflexivity |].
  exact (@glb_name_without_extension Ref.platform "A.FBX" eq_refl).
Defined.

Lemma demo_missing (f : string) :
  In f ["great sword attack.fbx"; "great sword kick.fbx"] ->
  os_path_exists Ref.platform (fbx_path Ref.platform f) (host Demo.start) = false.
Proof. intros [<- | [<- | []]]; reflexivity. Qed.

Lemma batch_all_missing_witness :
  (forall f, In f ["great sword attack.fbx"; "great sword kick.fbx"] ->
     os_path_exists Ref.platform (fbx_path Ref.platform f) (host Demo.start)
     = false)
  /\ (let files := ["great sword attack.fbx"; "great sword kick.fbx"] in
      let w := Demo.start in
      host (snd (batch files w)) = host w
      /\ (exists tested rest,
            files = (tested ++ rest)%list
            /\ calls (snd (batch files w))
               = (calls w
                  ++ map (fun f => os_path_exists_call (fbx_path Ref.platform f))
                       tested)%list)
      /\ (prints_return Ref.platform ->
          batch files w
          = (inr tt,
             {| host := host w;
                stdout := stdout w ++ opening ++ map not_found_notice files
                          ++ closing;
                calls := calls w
                         ++ map (fun f => os_path_exists_call
                                            (fbx_path Ref.platform f))
                              files |}))).
Proof.
  split; [exact demo_missing |].
  exact (@batch_all_missing Ref.platform
           ["great sword attack.fbx"; "great sword kick.fbx"] Demo.start
           demo_missing).
Defined.

(** The batch of two missing files on a standard output that takes every
    line, and on one that has no code for the mark of the notice. *)
Example batch_all_missing_run :
  batch ["great sword attack.fbx"; "great sword kick.fbx"] Demo.start
  = (inr tt,
     @Build_World Ref.platform Demo.startup
       (opening
        ++ [ not_found_notice "great sword attack.fbx";
             not_found_notice "great sword kick.fbx" ]
        ++ closing)
       [ os_path_exists_call (fbx_path Ref.platform "great sword attack.fbx");
         os_path_exists_call (fbx_path Ref.platform "great sword kick.fbx") ])
  /\ batch ["great sword attack.fbx"; "great sword kick.fbx"] Demo.legacy_start
     = (inl Ref.unencodable,
        @Build_World Ref.legacy Demo.startup opening
          [ os_path_exists_call (fbx_path Ref.legacy "great sword attack.fbx") ]).
Proof. vm_compute. split; reflexivity. Qed.

Lemma missing_file_requests_nothing_witness :
  os_path_exists Ref.platform
    (fbx_path Ref.platform "great sword attack.fbx") (host Demo.start) = false
  /\ (let f := "great sword attack.fbx" in
      let rest := ["great sword idle.fbx"] in
      let w := Demo.start in
      let w0 := note (os_path_exists_call (fbx_path Ref.platform f)) (host w) w in
      let line := "❌ Not found: great sword attack.fbx" in
      iteration f w = print line w0
      /\ host (snd (iteration f w)) = host w
      /\ calls (snd (iteration f w))
         = (calls w ++ [os_path_exists_call (fbx_path Ref.platform f)])%list
      /\ (print_raises Ref.platform line (host w) = None ->
          iteration f w = (inr tt, say line w0)
          /\ stdout (say line w0) = (stdout w ++ [line])%list
          /\ for_each (f :: rest) (@iteration Ref.platform) w
             = for_each rest (@iteration Ref.platform) (say line w0))
      /\ (forall e, print_raises Ref.platform line (host w) = Some e ->
          iteration f w = (inl e, w0)
          /\ stdout w0 = stdout w
          /\ for_each (f :: rest) (@iteration Ref.platform) w = (inl e, w0))).
Proof.
  split; [reflexivity |].
  exact (@missing_file_requests_nothing Ref.platform "great sword attack.fbx"
           ["great sword idle.fbx"] Demo.start eq_refl).
Defined.

Lemma batch_lines_in_order_witness :
  prints_return Ref.platform
  /\ exists w' ls,
       batch ["great sword idle.fbx"; "great sword attack.fbx"] Demo.start
       = (inr tt, w')
       /\ stdout w' = (stdout Demo.start ++ opening ++ concat ls ++ closing)%list
       /\ Forall2 item_lines ["great sword idle.fbx"; "great sword attack.fbx"] ls
       /\ ~ In banner (concat ls)
       /\ count_occ string_dec (opening ++ concat ls ++ closing) banner = 1
       /\ banner = "Conversion Complete!".
Proof.
  split; [exact ref_prints_return |].
  exact (@batch_lines_in_order Ref.platform
           ["great sword idle.fbx"; "great sword attack.fbx"] Demo.start
           ref_prints_return).
Defined.

Lemma litter_nodup :
  NoDup [Litter.mesh 0 false; Litter.mesh 1 true; Litter.mesh 2 false].
Proof.
  repeat constructor; cbn; intuition discriminate.
Qed.

Lemma purge_never_touches_removed_witness :
  bpy_perform Ref.platform (data_iter meshes) (host (Ref.world Litter.littered))
  = (inr [Litter.mesh 0 false; Litter.mesh 1 true; Litter.mesh 2 false],
     Litter.littered)
  /\ NoDup [Litter.mesh 0 false; Litter.mesh 1 true; Litter.mesh 2 false]
  /\ exists t,
       calls (snd (purge meshes (Ref.world Litter.littered)))
       = (calls (Ref.world Litter.littered) ++ bpy (data_iter meshes) :: t)%list
       /\ never_after_removal t
       /\ Forall (fun c => exists b,
                    In b [Litter.mesh 0 false; Litter.mesh 1 true;
                          Litter.mesh 2 false]
                    /\ about b c) t.
Proof.
  split; [reflexivity |]. split; [exact litter_nodup |].
  exact (@purge_never_touches_removed Ref.platform meshes
           (Ref.world Litter.littered)
           [Litter.mesh 0 false; Litter.mesh 1 true; Litter.mesh 2 false]
           Litter.littered eq_refl litter_nodup).
Defined.

(** The requests of the purge of the littered scene: the two unused
    meshes are removed, each right after its count was read; the one with
    a fake user is read and kept. *)
Example litter_purge_run :
  calls (snd (purge meshes (Ref.world Litter.littered)))
  = [ bpy (data_iter meshes);
      bpy (block_users (Litter.mesh 0 false));
      bpy (data_remove meshes (Litter.mesh 0 false));
      bpy (block_users (Litter.mesh 1 true));
      bpy (block_users (Litter.mesh 2 false));
      bpy (data_remove meshes (Litter.mesh 2 false)) ]
  /\ blocks Ref.view meshes (host (snd (purge meshes (Ref.world Litter.littered))))
     = [Litter.mesh 1 true].
Proof. vm_compute. split; reflexivity. Qed.

Lemma reset_removes_exactly_unused_witness :
  Blender Ref.view
  /\ plain Ref.view (host Demo.start)
  /\ exists wc w3 w4 w',
       clear_scene Demo.start = (inr tt, wc)
       /\ purge meshes wc = (inr tt, w3)
       /\ purge armatures w3 = (inr tt, w4)
       /\ purge actions w4 = (inr tt, w')
       /\ reset Demo.start = (inr tt, w')
       /\ (forall b, In b (blocks Ref.view meshes (host w')) <->
                     In b (blocks Ref.view meshes (host Demo.start))
                     /\ users Ref.view (host wc) b <> 0)
       /\ (forall b, In b (blocks Ref.view armatures (host w')) <->
                     In b (blocks Ref.view armatures (host Demo.start))
                     /\ users Ref.view (host w3) b <> 0)
       /\ (forall b, In b (blocks Ref.view actions (host w')) <->
                     In b (blocks Ref.view actions (host Demo.start))
                     /\ users Ref.view (host w4) b <> 0).
Proof.
  split; [exact ref_laws |]. split; [exact demo_start_plain |].
  exact (@reset_removes_exactly_unused Ref.platform Ref.view ref_laws Demo.start
           demo_start_plain).
Defined.

Lemma outcome_by_import_and_export_witness :
  Blender Ref.view
  /\ prints_return Ref.platform
  /\ plain Ref.view (host Demo.start)
  /\ os_path_exists Ref.platform
       (fbx_path Ref.platform "great sword idle.fbx") (host Demo.start) = true
  /\ (let f := "great sword idle.fbx" in
      let w := Demo.start in
      let w0 := note (os_path_exists_call (fbx_path Ref.platform f)) (host w) w in
      let import := import_scene_fbx (fbx_path Ref.platform f) in
      let export := export_scene_gltf (glb_path Ref.platform f) "GLB" true true in
      exists w1,
        reset w0 = (inr tt, w1)
        /\ (forall e s2,
              bpy_perform Ref.platform import (host w1) = (inl e, s2) ->
              exists w',
                iteration f w = (inr tt, w') /\ host w' = s2
                /\ stdout w'
                   = (stdout w ++ [importing_notice f; error_notice f e])%list)
        /\ (forall s2,
              bpy_perform Ref.platform import (host w1) = (inr tt, s2) ->
              exists w3,
                before_export f w0 = (inr tt, w3)
                /\ stdout w3
                   = (stdout w
                      ++ [importing_notice f;
                          found_notice
                            (count_type "MESH"
                               (fbx_types Ref.view (fbx_path Ref.platform f) (host w)))
                            (count_type "ARMATURE"
                               (fbx_types Ref.view (fbx_path Ref.platform f) (host w)));
                          exporting_notice f])%list
                /\ (forall e s4,
                      bpy_perform Ref.platform export (host w3) = (inl e, s4) ->
                      exists w',
                        iteration f w = (inr tt, w') /\ host w' = s4
                        /\ stdout w' = (stdout w3 ++ [error_notice f e])%list)
                /\ (forall s4,
                      bpy_perform Ref.platform export (host w3) = (inr tt, s4) ->
                      exists w',
                        iteration f w = (inr tt, w') /\ host w' = s4
                        /\ stdout w' = (stdout w3 ++ [converted_notice f])%list
                        /\ glb_at Ref.view (glb_path Ref.platform f) s4
                           = Some (glb_of Ref.view (host w3))))).
Proof.
  assert (H1 : os_path_exists Ref.platform
                 (fbx_path Ref.platform "great sword idle.fbx")
                 (host Demo.start) = true)
    by (vm_compute; reflexivity).
  split; [exact ref_laws |]. split; [exact ref_prints_return |].
  split; [exact demo_start_plain |]. split; [exact H1 |].
  exact (@outcome_by_import_and_export Ref.platform Ref.view ref_laws
           "great sword idle.fbx" Demo.start ref_prints_return
           demo_start_plain H1).
Defined.
